(** * azure-extensions-cli: the command layer of [main.go]

    A shallow embedding of the five command actions of [main.go]
    ([newExtensionManifest], [listVersions], [replicationStatus],
    [unpublishVersion], [deleteVersion]) with their helpers [checkFlag] and
    [mkClient], followed by a model of the operation poller that the
    specification describes.

    Go strings and byte slices are [string] (a Rocq [ascii] is one byte).
    The process is modelled by a writer/exit monad: a command yields the
    chronological list of its observable events and either a value or the
    exit code of [os.Exit]. *)

From Stdlib Require Import String Ascii List Bool Arith Lia.
Import ListNotations.
Open Scope string_scope.

(** ** text/template, restricted to what [main.go] uses

    The two templates of [main.go] contain only literal text and actions of
    the form [{{.Field}}]. [Parse] splits the source at the delimiters;
    [Execute] writes the nodes one after the other, a field action printing
    the string field verbatim (text/template does no escaping). *)
Module Template.

Inductive Node : Type :=
| TextNode (text : string)
| FieldNode (field : string).

Definition Template := list Node.

Inductive Mode : Type := InText | InAction.

Definition snoc (s : string) (a : ascii) : string := s ++ String a EmptyString.

Definition isIdentChar (a : ascii) : bool :=
  let n := nat_of_ascii a in
  (((65 <=? n) && (n <=? 90)) || ((97 <=? n) && (n <=? 122))
   || ((48 <=? n) && (n <=? 57)) || (n =? 95))%nat.

Fixpoint allIdent (s : string) : bool :=
  match s with
  | EmptyString => true
  | String a s' => isIdentChar a && allIdent s'
  end.

(** The body of an action: a dot followed by a non-empty identifier. *)
Definition parseAction (body : string) : option Node :=
  match body with
  | String "."%char (String a rest) =>
      if allIdent (String a rest) then Some (FieldNode (String a rest)) else None
  | _ => None
  end.

Definition flushText (cur : string) : list Node :=
  match cur with
  | EmptyString => []
  | _ => [TextNode cur]
  end.

(** The lexer and parser in one pass: [cur] is the text (or the action body)
    read since the last delimiter. An action left open at the end of the
    input, or one that is not a field reference, is a parse error. *)
Fixpoint lex (s : string) (m : Mode) (cur : string) : option (list Node) :=
  match s, m with
  | EmptyString, InText => Some (flushText cur)
  | EmptyString, InAction => None
  | String "{"%char (String "{"%char rest), InText =>
      option_map (fun ns => (flushText cur ++ ns)%list) (lex rest InAction EmptyString)
  | String "}"%char (String "}"%char rest), InAction =>
      match parseAction cur with
      | Some n => option_map (cons n) (lex rest InText EmptyString)
      | None => None
      end
  | String a s', _ => lex s' m (snoc cur a)
  end.

Definition Parse (text : string) : string + Template :=
  match lex text InText EmptyString with
  | Some t => inr t
  | None => inl "template: parse error"
  end.

(** The data of an execution: the exported fields of the struct passed to
    [Execute], by name. *)
Definition Data := list (string * string).

Fixpoint field (d : Data) (f : string) : option string :=
  match d with
  | [] => None
  | (k, v) :: d' => if String.eqb k f then Some v else field d' f
  end.

(** [Execute] returns what reached the writer and the error, if any: nodes
    before a failing action have already been written. *)
Fixpoint Execute (t : Template) (d : Data) : string * option string :=
  match t with
  | [] => (EmptyString, None)
  | TextNode s :: t' =>
      let (out, err) := Execute t' d in (s ++ out, err)
  | FieldNode f :: t' =>
      match field d f with
      | Some v => let (out, err) := Execute t' d in (v ++ out, err)
      | None => (EmptyString, Some ("template: can't evaluate field " ++ f))
      end
  end.

(** What a node prints: its text, or the value of its field. *)
Definition printed (n : Node) (d : Data) : string + string :=
  match n with
  | TextNode s => inr s
  | FieldNode f =>
      match field d f with
      | Some v => inr v
      | None => inl ("template: can't evaluate field " ++ f)
      end
  end.

End Template.

(** ** Characters that a Rocq literal cannot hold directly *)
Definition dq : string := String "034"%char EmptyString.
Definition nl : string := String "010"%char EmptyString.

(** Lines of a raw Go string literal, joined by newlines. *)
Fixpoint joinLines (ls : list string) : string :=
  match ls with
  | [] => EmptyString
  | [l] => l
  | l :: ls' => l ++ nl ++ joinLines ls'
  end.

Definition xmlDecl : string :=
  "<?xml version=" ++ dq ++ "1.0" ++ dq ++ " encoding=" ++ dq ++ "utf-8" ++ dq ++ " ?>".

Definition rootOpen : string :=
  "<ExtensionImage xmlns=" ++ dq ++ "http://schemas.microsoft.com/windowsazure" ++ dq
  ++ "  xmlns:i=" ++ dq ++ "http://www.w3.org/2001/XMLSchema-instance" ++ dq ++ ">".

Definition orderingWarning : string :=
  "  <!-- WARNING: Ordering of fields matter in this file. -->".

(** The template text of [newExtensionManifest] (it ends with a newline). *)
Definition newManifestXml : string :=
  joinLines
    [ xmlDecl
    ; rootOpen
    ; orderingWarning
    ; "  <ProviderNameSpace>{{.Namespace}}</ProviderNameSpace>"
    ; "  <Type>{{.Name}}</Type>"
    ; "  <Version>{{.Version}}</Version>"
    ; "  <Label>{{.Label}}</Label>"
    ; "  <HostingResources>VmRole</HostingResources>"
    ; "  <MediaLink>%BLOB_URL%</MediaLink>"
    ; "  <Description>{{.Description}}</Description>"
    ; "  <IsInternalExtension>true</IsInternalExtension>"
    ; "  <Eula>{{.Eula}}</Eula>"
    ; "  <PrivacyUri>{{.Privacy}}</PrivacyUri>"
    ; "  <HomepageUri>{{.Homepage}}</HomepageUri>"
    ; "  <IsJsonExtension>true</IsJsonExtension>"
    ; "  <CompanyName>{{.Company}}</CompanyName>"
    ; "  <SupportedOS>{{.OS}}</SupportedOS>"
    ; "  <!--%REGIONS%-->"
    ; "</ExtensionImage>"
    ; "" ].

(** The template text of [unpublishVersion] (no trailing newline). *)
Definition unpublishManifestXml : string :=
  joinLines
    [ xmlDecl
    ; rootOpen
    ; orderingWarning
    ; "  <ProviderNameSpace>{{.Namespace}}</ProviderNameSpace>"
    ; "  <Type>{{.Name}}</Type>"
    ; "  <Version>{{.Version}}</Version>"
    ; "  <IsInternalExtension>true</IsInternalExtension>"
    ; "  <IsJsonExtension>true</IsJsonExtension>"
    ; "</ExtensionImage>" ].


(** ** The process monad

    [log.Fatal] and [log.Fatalf] (logrus) write the entry and call
    [os.Exit(1)]: what follows them in the source is not run. *)
Inductive Level : Type := DebugLevel | InfoLevel | FatalLevel.

Inductive Event : Type :=
| EvReadFile (path : string)
| EvNewClient (subscriptionID cert : string)
| EvListVersions
| EvGetReplicationStatus (ns name version : string)
| EvUpdateExtension (body : string)
| EvDeleteExtension (ns name version : string)
| EvWaitForOperation (op : string)
| EvLog (lvl : Level) (fields : list (string * string)) (msg : string)
| EvStdout (text : string)
| EvTable (header : list string) (rows : list (list string)).

Inductive Outcome (A : Type) : Type :=
| Done (a : A)
| Exit (code : nat).
Arguments Done {A} a.
Arguments Exit {A} code.

Definition M (A : Type) : Type := list Event * Outcome A.

Definition ret {A} (a : A) : M A := ([], Done a).

Definition bind {A B} (m : M A) (f : A -> M B) : M B :=
  match m with
  | (t, Done a) => let (t', r) := f a in ((t ++ t')%list, r)
  | (t, Exit c) => (t, Exit c)
  end.

Notation "x <- m ;; k" := (bind m (fun x => k))
  (at level 61, m at next level, right associativity).
Notation "' pat <- m ;; k" := (bind m (fun x => match x with pat => k end))
  (at level 61, pat pattern, m at next level, right associativity).
Notation "m ;; k" := (bind m (fun _ => k))
  (at level 61, right associativity).

Definition emit (e : Event) : M unit := ([e], Done tt).
Definition os_Exit {A} (code : nat) : M A := ([], Exit code).

Definition trace {A} (m : M A) : list Event := fst m.
Definition outcome {A} (m : M A) : Outcome A := snd m.

(** Go's [error], by its message. *)
Definition error := string.

(** [fmt.Sprint] on string and error operands: no space is inserted next to
    a string operand, and a format verb in the first operand stays as it is. *)
Definition Sprint (operands : list string) : string := String.concat "" operands.

Definition log_Debug (msg : string) : M unit := emit (EvLog DebugLevel [] msg).
Definition log_Info (msg : string) : M unit := emit (EvLog InfoLevel [] msg).
Definition entry_Info (fields : list (string * string)) (msg : string) : M unit :=
  emit (EvLog InfoLevel fields msg).
Definition entry_Fatalf (fields : list (string * string)) (msg : string) : M unit :=
  emit (EvLog FatalLevel fields msg) ;; os_Exit 1.
Definition log_Fatalf (msg : string) : M unit := entry_Fatalf [] msg.
Definition log_Fatal (operands : list string) : M unit := log_Fatalf (Sprint operands).

(** [if err != nil { ... }] *)
Definition ifErr (err : option error) (handler : error -> M unit) : M unit :=
  match err with
  | Some e => handler e
  | None => ret tt
  end.

(** ** Flags and the command-line context *)
Definition flManifest : string := "manifest".
Definition flSubsID : string := "subscription-id".
Definition flSubsCert : string := "subscription-cert".
Definition flVersion : string := "version".
Definition flNamespace : string := "namespace".
Definition flName : string := "name".

(** [cli.Context]: the string flags the user set, by name. *)
Definition Context := list (string * string).

(** [c.String(fl)]: the value of the flag, the empty string when it is not set. *)
Fixpoint ctxString (c : Context) (fl : string) : string :=
  match c with
  | [] => ""
  | (k, v) :: c' => if String.eqb k fl then v else ctxString c' fl
  end.

Definition checkFlag (c : Context) (fl : string) : M string :=
  let v := ctxString c fl in
  (if String.eqb v "" then log_Fatalf ("argument " ++ fl ++ " must be provided")
   else ret tt) ;;
  ret v.

(** ** new-extension-manifest *)
Record ManifestParams : Type := mkManifestParams {
  p_Namespace : string; p_Name : string; p_Version : string; p_Label : string;
  p_Description : string; p_Eula : string; p_Privacy : string; p_Homepage : string;
  p_Company : string; p_OS : string }.

Definition zeroParams : ManifestParams :=
  mkManifestParams "" "" "" "" "" "" "" "" "" "".

(** The pointers [&p.Namespace], ... of the [flags] table, as setters. *)
Definition refNamespace p v := mkManifestParams v (p_Name p) (p_Version p) (p_Label p) (p_Description p) (p_Eula p) (p_Privacy p) (p_Homepage p) (p_Company p) (p_OS p).
Definition refName p v := mkManifestParams (p_Namespace p) v (p_Version p) (p_Label p) (p_Description p) (p_Eula p) (p_Privacy p) (p_Homepage p) (p_Company p) (p_OS p).
Definition refVersion p v := mkManifestParams (p_Namespace p) (p_Name p) v (p_Label p) (p_Description p) (p_Eula p) (p_Privacy p) (p_Homepage p) (p_Company p) (p_OS p).
Definition refLabel p v := mkManifestParams (p_Namespace p) (p_Name p) (p_Version p) v (p_Description p) (p_Eula p) (p_Privacy p) (p_Homepage p) (p_Company p) (p_OS p).
Definition refDescription p v := mkManifestParams (p_Namespace p) (p_Name p) (p_Version p) (p_Label p) v (p_Eula p) (p_Privacy p) (p_Homepage p) (p_Company p) (p_OS p).
Definition refEula p v := mkManifestParams (p_Namespace p) (p_Name p) (p_Version p) (p_Label p) (p_Description p) v (p_Privacy p) (p_Homepage p) (p_Company p) (p_OS p).
Definition refPrivacy p v := mkManifestParams (p_Namespace p) (p_Name p) (p_Version p) (p_Label p) (p_Description p) (p_Eula p) v (p_Homepage p) (p_Company p) (p_OS p).
Definition refHomepage p v := mkManifestParams (p_Namespace p) (p_Name p) (p_Version p) (p_Label p) (p_Description p) (p_Eula p) (p_Privacy p) v (p_Company p) (p_OS p).
Definition refCompany p v := mkManifestParams (p_Namespace p) (p_Name p) (p_Version p) (p_Label p) (p_Description p) (p_Eula p) (p_Privacy p) (p_Homepage p) v (p_OS p).
Definition refOS p v := mkManifestParams (p_Namespace p) (p_Name p) (p_Version p) (p_Label p) (p_Description p) (p_Eula p) (p_Privacy p) (p_Homepage p) (p_Company p) v.

Definition manifestFlags : list ((ManifestParams -> string -> ManifestParams) * string) :=
  [ (refNamespace, flNamespace); (refName, flName); (refVersion, flVersion)
  ; (refLabel, "label"); (refDescription, "description"); (refEula, "eula-url")
  ; (refPrivacy, "privacy-url"); (refHomepage, "homepage-url")
  ; (refCompany, "company"); (refOS, "supported-os") ].

(** The names of the ten flags, in the order of the table. *)
Definition manifestFlagNames : list string := map snd manifestFlags.

(** [for _, f := range flags { *f.ref = checkFlag(c, f.fl) }] *)
Fixpoint fillParams (c : Context)
    (flags : list ((ManifestParams -> string -> ManifestParams) * string))
    (p : ManifestParams) : M ManifestParams :=
  match flags with
  | [] => ret p
  | (ref, fl) :: flags' =>
      v <- checkFlag c fl ;;
      fillParams c flags' (ref p v)
  end.

(** The fields of [p] as text/template sees them. *)
Definition manifestData (p : ManifestParams) : Template.Data :=
  [ ("Namespace", p_Namespace p); ("Name", p_Name p); ("Version", p_Version p)
  ; ("Label", p_Label p); ("Description", p_Description p); ("Eula", p_Eula p)
  ; ("Privacy", p_Privacy p); ("Homepage", p_Homepage p)
  ; ("Company", p_Company p); ("OS", p_OS p) ].

(** [os.Stdout] as an [io.Writer]: from what it has accepted so far and the
    chunk of a [Write], the number of bytes it accepts and the error of the
    call. *)
Definition Writer : Type := string -> string -> nat * option error.

(** [tpl.Execute(os.Stdout, p)]: one [Write] per node, in order. The bytes
    a [Write] accepts are on standard output; its error, or the error of a
    field that cannot be evaluated, ends the execution and is returned as it
    is. *)
Fixpoint executeNodes (stdout : Writer) (t : Template.Template) (d : Template.Data)
    (written : string) : M (option error) :=
  match t with
  | [] => ret None
  | n :: t' =>
      match Template.printed n d with
      | inl e => ret (Some e)
      | inr chunk =>
          let (k, err) := stdout written chunk in
          let accepted := substring 0 k chunk in
          (if String.eqb accepted "" then ret tt else emit (EvStdout accepted)) ;;
          match err with
          | Some e => ret (Some e)
          | None => executeNodes stdout t' d (written ++ accepted)
          end
      end
  end.

Definition executeToStdout (stdout : Writer) (tpl : Template.Template) (d : Template.Data)
  : M (option error) :=
  executeNodes stdout tpl d "".

Definition newExtensionManifest (stdout : Writer) (c : Context) : M unit :=
  p <- fillParams c manifestFlags zeroParams ;;
  match Template.Parse newManifestXml with
  | inl err => log_Fatalf ("template parse error: " ++ err)
  | inr tpl =>
      err <- executeToStdout stdout tpl (manifestData p) ;;
      ifErr err (fun e => log_Fatalf ("template execute error: " ++ e))
  end.

(** ** The extensions client, as [main.go] uses it

    Modelled from the spec: the result types of [ListVersions] and
    [GetReplicationStatus], declared with the client outside [main.go]. Their
    fields are the ones [main.go] reads; the replication-completed flag is a
    boolean. *)
Record ExtensionInfo : Type := mkExtensionInfo {
  e_Ns : string; e_Name : string; e_Version : string;
  e_ReplicationCompleted : bool; e_Regions : string }.

Record ListVersionsResponse : Type := mkListVersionsResponse {
  Extensions : list ExtensionInfo }.

Record ReplicationStatus : Type := mkReplicationStatus {
  s_Location : string; s_Status : string }.

Record ReplicationStatusResponse : Type := mkReplicationStatusResponse {
  Statuses : list ReplicationStatus }.

(** What the commands call and do not define: [ioutil.ReadFile], the
    constructor [NewClient] and the five methods of the client. Each returns
    Go's pair of a value and an error. Every command calls each of them at
    most once, so a function of the arguments is the general case. *)
Record Env (ExtensionsClient : Type) : Type := mkEnv {
  ReadFile : string -> string * option error;
  NewClient : string -> string -> ExtensionsClient * option error;
  ListVersions : ExtensionsClient -> ListVersionsResponse * option error;
  GetReplicationStatus :
    ExtensionsClient -> string -> string -> string -> ReplicationStatusResponse * option error;
  UpdateExtension : ExtensionsClient -> string -> string * option error;
  DeleteExtension : ExtensionsClient -> string -> string -> string -> string * option error;
  WaitForOperation : ExtensionsClient -> string -> option error }.
Arguments ReadFile {ExtensionsClient} _ _.
Arguments NewClient {ExtensionsClient} _ _ _.
Arguments ListVersions {ExtensionsClient} _ _.
Arguments GetReplicationStatus {ExtensionsClient} _ _ _ _ _.
Arguments UpdateExtension {ExtensionsClient} _ _ _.
Arguments DeleteExtension {ExtensionsClient} _ _ _ _ _.
Arguments WaitForOperation {ExtensionsClient} _ _ _.

(** A call to the outside: the event, then the result. *)
Definition call {A} (e : Event) (result : A) : M A := emit e ;; ret result.

(** [fmt.Sprintf("%v", b)] for a boolean. *)
Definition Sprintf_v_bool (b : bool) : string := if b then "true" else "false".

(** tablewriter: the header and the rows in the order they were appended;
    [Render] prints them in that order. *)
Record Table : Type := mkTable { t_header : list string; t_rows : list (list string) }.
Definition NewWriter : Table := mkTable [] [].
Definition SetHeader (t : Table) (h : list string) : Table := mkTable h (t_rows t).
Definition AppendBulk (t : Table) (rows : list (list string)) : Table :=
  mkTable (t_header t) (t_rows t ++ rows)%list.
Definition Render (t : Table) : M unit := emit (EvTable (t_header t) (t_rows t)).

Section Commands.

Variable ExtensionsClient : Type.
Variable env : Env ExtensionsClient.

Definition mkClient (subscriptionID certFile : string) : M ExtensionsClient :=
  '(b, err) <- call (EvReadFile certFile) (ReadFile env certFile) ;;
  ifErr err (fun e => log_Fatal ["Cannot read certificate %s: %v"; certFile; e]) ;;
  '(cl, err) <- call (EvNewClient subscriptionID b) (NewClient env subscriptionID b) ;;
  ifErr err (fun e => log_Fatal ["Cannot create client: %v"; e]) ;;
  ret cl.

Definition versionRow (e : ExtensionInfo) : list string :=
  [e_Ns e; e_Name e; e_Version e; Sprintf_v_bool (e_ReplicationCompleted e); e_Regions e].

Definition statusRow (s : ReplicationStatus) : list string :=
  [s_Location s; s_Status s].

(** [data := [][]string{}; for _, x := range xs { data = append(data, row(x)) }] *)
Definition appendRows {A} (row : A -> list string) (xs : list A) : list (list string) :=
  fold_left (fun data x => (data ++ [row x])%list) xs [].

Definition listVersions (c : Context) : M unit :=
  subscriptionID <- checkFlag c flSubsID ;;
  certFile <- checkFlag c flSubsCert ;;
  cl <- mkClient subscriptionID certFile ;;
  '(v, err) <- call EvListVersions (ListVersions env cl) ;;
  ifErr err (fun e => log_Fatal ["Request failed: %v"; e]) ;;
  let table := NewWriter in
  let table := SetHeader table ["Namespace"; "Type"; "Version"; "Replication Completed"; "Regions"] in
  let data := appendRows versionRow (Extensions v) in
  let table := AppendBulk table data in
  Render table.

Definition replicationStatus (c : Context) : M unit :=
  subscriptionID <- checkFlag c flSubsID ;;
  certFile <- checkFlag c flSubsCert ;;
  cl <- mkClient subscriptionID certFile ;;
  ns <- checkFlag c flNamespace ;;
  name <- checkFlag c flName ;;
  version <- checkFlag c flVersion ;;
  log_Debug "Requesting replication status." ;;
  '(rs, err) <- call (EvGetReplicationStatus ns name version)
                     (GetReplicationStatus env cl ns name version) ;;
  ifErr err (fun e => log_Fatal ["Cannot fetch replication status: %v"; e]) ;;
  let table := NewWriter in
  let table := SetHeader table ["Location"; "Status"] in
  let data := appendRows statusRow (Statuses rs) in
  let table := AppendBulk table data in
  Render table.

(** The fields of the anonymous struct of [unpublishVersion]. *)
Definition unpublishData (ns name version : string) : Template.Data :=
  [("Namespace", ns); ("Name", name); ("Version", version)].

Definition unpublishVersion (c : Context) : M unit :=
  ns <- checkFlag c flNamespace ;;
  name <- checkFlag c flName ;;
  version <- checkFlag c flVersion ;;
  let p := unpublishData ns name version in
  match Template.Parse unpublishManifestXml with
  | inl err => log_Fatalf ("template parse error: " ++ err)
  | inr tpl =>
      let (b, err) := Template.Execute tpl p in
      ifErr err (fun e => log_Fatalf ("template execute error: " ++ e)) ;;
      subscriptionID <- checkFlag c flSubsID ;;
      certFile <- checkFlag c flSubsCert ;;
      cl <- mkClient subscriptionID certFile ;;
      '(op, err) <- call (EvUpdateExtension b) (UpdateExtension env cl b) ;;
      ifErr err (fun e => log_Fatalf ("UpdateExtension failed: " ++ e)) ;;
      let lg := [("x-ms-operation-id", op)] in
      entry_Info lg "UpdateExtension operation started." ;;
      err <- call (EvWaitForOperation op) (WaitForOperation env cl op) ;;
      ifErr err (fun e => entry_Fatalf lg ("UpdateExtension failed: " ++ e)) ;;
      entry_Info lg "UpdateExtension operation finished."
  end.

Definition deleteVersion (c : Context) : M unit :=
  subscriptionID <- checkFlag c flSubsID ;;
  certFile <- checkFlag c flSubsCert ;;
  cl <- mkClient subscriptionID certFile ;;
  ns <- checkFlag c flNamespace ;;
  name <- checkFlag c flName ;;
  version <- checkFlag c flVersion ;;
  log_Info "Deleting extension version. Make sure you unpublished before deleting." ;;
  '(op, err) <- call (EvDeleteExtension ns name version)
                     (DeleteExtension env cl ns name version) ;;
  ifErr err (fun e => log_Fatalf ("Error deleting version: " ++ e)) ;;
  log_Debug "DeleteExtension operation started." ;;
  err <- call (EvWaitForOperation op) (WaitForOperation env cl op) ;;
  ifErr err (fun e => log_Fatalf ("DeleteExtension failed: " ++ e)) ;;
  log_Info "DeleteExtension operation finished.".

End Commands.

Arguments mkClient {ExtensionsClient} env subscriptionID certFile.
Arguments listVersions {ExtensionsClient} env c.
Arguments replicationStatus {ExtensionsClient} env c.
Arguments unpublishVersion {ExtensionsClient} env c.
Arguments deleteVersion {ExtensionsClient} env c.

(** ** Observations on a trace *)

(** A method call on the client, the only place where HTTP requests are
    issued ([NewClient] only builds the client). *)
Definition isRequest (e : Event) : bool :=
  match e with
  | EvListVersions | EvGetReplicationStatus _ _ _ | EvUpdateExtension _
  | EvDeleteExtension _ _ _ | EvWaitForOperation _ => true
  | _ => false
  end.

Definition isWait (e : Event) : bool :=
  match e with EvWaitForOperation _ => true | _ => false end.

Definition isOutput (e : Event) : bool :=
  match e with EvStdout _ | EvTable _ _ => true | _ => false end.

(** What a run has put on standard output as text, in order. *)
Fixpoint stdoutText (t : list Event) : string :=
  match t with
  | [] => ""
  | EvStdout s :: t' => s ++ stdoutText t'
  | _ :: t' => stdoutText t'
  end.

Definition requests (t : list Event) : list Event := filter isRequest t.
Definition waits (t : list Event) : list Event := filter isWait t.
Definition outputs (t : list Event) : list Event := filter isOutput t.

(** The four commands that build a client. *)
Inductive Command : Type := ListVersionsCmd | ReplicationStatusCmd | UnpublishVersionCmd | DeleteVersionCmd.

Definition run {C} (env : Env C) (cmd : Command) (c : Context) : M unit :=
  match cmd with
  | ListVersionsCmd => listVersions env c
  | ReplicationStatusCmd => replicationStatus env c
  | UnpublishVersionCmd => unpublishVersion env c
  | DeleteVersionCmd => deleteVersion env c
  end.

(** The flags of each command, as [main] declares them. *)
Definition commandFlags (cmd : Command) : list string :=
  match cmd with
  | ListVersionsCmd => [flSubsID; flSubsCert]
  | _ => [flSubsID; flSubsCert; flNamespace; flName; flVersion]
  end.

(** The fatal entry of [checkFlag]. *)
Definition missingArgument (fl : string) : Event :=
  EvLog FatalLevel [] ("argument " ++ fl ++ " must be provided").

(** ** The documents the templates stand for *)
Definition element (child : string * string) : string :=
  "  <" ++ fst child ++ ">" ++ snd child ++ "</" ++ fst child ++ ">".

(** An [ExtensionImage] document: the declaration, the root element with
    its namespaces, the warning comment, the children one per line, then the
    given closing lines. *)
Definition extensionImage (children : list (string * string)) (closing : list string) : string :=
  joinLines ([xmlDecl; rootOpen; orderingWarning] ++ map element children ++ closing)%list.

Definition unpublishChildren (ns name version : string) : list (string * string) :=
  [ ("ProviderNameSpace", ns); ("Type", name); ("Version", version)
  ; ("IsInternalExtension", "true"); ("IsJsonExtension", "true") ].

Definition unpublishDoc (ns name version : string) : string :=
  extensionImage (unpublishChildren ns name version) ["</ExtensionImage>"].

Definition newManifestChildren (p : ManifestParams) : list (string * string) :=
  [ ("ProviderNameSpace", p_Namespace p); ("Type", p_Name p); ("Version", p_Version p)
  ; ("Label", p_Label p); ("HostingResources", "VmRole"); ("MediaLink", "%BLOB_URL%")
  ; ("Description", p_Description p); ("IsInternalExtension", "true")
  ; ("Eula", p_Eula p); ("PrivacyUri", p_Privacy p); ("HomepageUri", p_Homepage p)
  ; ("IsJsonExtension", "true"); ("CompanyName", p_Company p); ("SupportedOS", p_OS p) ].

Definition newManifestDoc (p : ManifestParams) : string :=
  extensionImage (newManifestChildren p) ["  <!--%REGIONS%-->"; "</ExtensionImage>"; ""].

(** The parameters a context gives to [newExtensionManifest]. *)
Definition paramsOf (c : Context) : ManifestParams :=
  mkManifestParams (ctxString c flNamespace) (ctxString c flName) (ctxString c flVersion)
    (ctxString c "label") (ctxString c "description") (ctxString c "eula-url")
    (ctxString c "privacy-url") (ctxString c "homepage-url") (ctxString c "company")
    (ctxString c "supported-os").

(** ** The operation poller

    Modelled from the spec: the poller behind [WaitForOperation] (the
    [wait] of section 4.3), whose code lies with the client outside
    [main.go]. It is the state machine of the specification: from [Pending]
    the first status query is issued; in [Polling] the cancellation signal
    and the deadline are checked at the top of every iteration, before the
    query; an answer [InProgress] is followed by a sleep of one poll
    interval; a transport error is retried, after the same sleep, until the
    bound on consecutive errors is reached.

    Time is a natural number of clock ticks. The status source is a
    sequence of canned answers: the [n]-th query ever issued gets the answer
    and takes the duration the source gives for [n] and the operation id. *)
Module Poller.

Local Open Scope nat_scope.

(** The status of an operation, as the server reports it. *)
Inductive Status : Type :=
| InProgress
| Succeeded
| Failed (code message : string).

Inductive QueryResult : Type :=
| Answer (s : Status)
| TransportError (e : error).

Inductive State : Type := Pending | Polling.

Inductive FailureReason : Type :=
| OperationFailed (code message : string)
| OperationQueryFailed.

Inductive TerminalResult : Type :=
| ResultSucceeded
| ResultFailed (reason : FailureReason)
| ResultTimedOut
| ResultCancelled.

Record Source : Type := mkSource {
  answer : nat -> string -> QueryResult;
  duration : nat -> string -> nat }.

Record Config : Type := mkConfig {
  interval : nat;
  retryBound : nat }.

(** The clock, the number of status queries issued so far, and the number
    of sleeps. *)
Record World : Type := mkWorld { now : nat; asked : nat; slept : nat }.

Definition query (src : Source) (operationID : string) (w : World) : QueryResult * World :=
  (answer src (asked w) operationID,
   mkWorld (now w + duration src (asked w) operationID) (S (asked w)) (slept w)).

Definition sleep (d : nat) (w : World) : World :=
  mkWorld (now w + d) (asked w) (S (slept w)).

Section Wait.

Variable src : Source.
Variable cfg : Config.
Variable operationID : string.
Variable deadline : nat.
Variable cancelSignal : nat -> bool.
(** The time at which [wait] was invoked. *)
Variable start : nat.

(** One iteration per unit of fuel. *)
Fixpoint loop (fuel : nat) (st : State) (failures : nat) (w : World)
  : option (TerminalResult * World) :=
  match fuel with
  | O => None
  | S fuel' =>
      let poll :=
        let (r, w1) := query src operationID w in
        match r with
        | Answer Succeeded => Some (ResultSucceeded, w1)
        | Answer (Failed code message) =>
            Some (ResultFailed (OperationFailed code message), w1)
        | Answer InProgress => loop fuel' Polling 0 (sleep (interval cfg) w1)
        | TransportError _ =>
            if retryBound cfg <=? S failures
            then Some (ResultFailed OperationQueryFailed, w1)
            else loop fuel' Polling (S failures) (sleep (interval cfg) w1)
        end in
      match st with
      | Pending => poll
      | Polling =>
          if cancelSignal (now w) then Some (ResultCancelled, w)
          else if deadline <? now w - start then Some (ResultTimedOut, w)
          else poll
      end
  end.

End Wait.

Definition wait (src : Source) (cfg : Config) (operationID : string) (deadline : nat)
    (cancelSignal : nat -> bool) (fuel : nat) (w : World)
  : option (TerminalResult * World) :=
  loop src cfg operationID deadline cancelSignal (now w) fuel Pending 0 w.





(** Canned sources for the scenarios of the specification. *)
Fixpoint nthAnswer (canned : list QueryResult) (n : nat) : QueryResult :=
  match canned, n with
  | [], _ => Answer InProgress
  | r :: _, O => r
  | _ :: canned', S n' => nthAnswer canned' n'
  end.

Definition cannedSource (canned : list QueryResult) (d : nat) : Source :=
  mkSource (fun n _ => nthAnswer canned n) (fun _ _ => d).

Definition neverFinishes (d : nat) : Source := cannedSource [] d.



Definition noCancel : nat -> bool := fun _ => false.

End Poller.

(** ** Inputs used below *)
Definition tenFlags : list string :=
  [ "namespace"; "name"; "version"; "label"; "description"; "eula-url"
  ; "privacy-url"; "homepage-url"; "company"; "supported-os" ].

Definition fullContext : Context :=
  [ ("namespace", "Microsoft.Azure.Extensions"); ("name", "FooExtension")
  ; ("version", "1.0.0"); ("label", "Foo"); ("description", "A test extension")
  ; ("eula-url", "http://e"); ("privacy-url", "http://p")
  ; ("homepage-url", "http://h"); ("company", "Contoso"); ("supported-os", "Linux") ].

(** The client a run builds, and what it means that building it succeeds. *)
Definition certBytes {C} (env : Env C) (c : Context) : string :=
  fst (ReadFile env (ctxString c flSubsCert)).

Definition theClient {C} (env : Env C) (c : Context) : C :=
  fst (NewClient env (ctxString c flSubsID) (certBytes env c)).

Definition clientBuilt {C} (env : Env C) (c : Context) : Prop :=
  snd (ReadFile env (ctxString c flSubsCert)) = None /\
  snd (NewClient env (ctxString c flSubsID) (certBytes env c)) = None.

Definition flagsSet (c : Context) (flags : list string) : Prop :=
  forall fl, In fl flags -> ctxString c fl <> "".

(** The flags a command checks before it calls [mkClient]. *)
Definition checkedBeforeClient (cmd : Command) : list string :=
  match cmd with
  | ListVersionsCmd => [flSubsID; flSubsCert]
  | ReplicationStatusCmd => [flSubsID; flSubsCert]
  | UnpublishVersionCmd => [flNamespace; flName; flVersion; flSubsID; flSubsCert]
  | DeleteVersionCmd => [flSubsID; flSubsCert]
  end.

Definition versionsHeader : list string :=
  ["Namespace"; "Type"; "Version"; "Replication Completed"; "Regions"].
Definition statusHeader : list string := ["Location"; "Status"].

(** An environment in which everything succeeds: list-versions answers
    with the entries B, A in that order. *)
Definition okEnv : Env unit :=
  mkEnv unit
    (fun path => ("-----BEGIN CERTIFICATE-----", None))
    (fun _ _ => (tt, None))
    (fun _ => (mkListVersionsResponse
                 [ mkExtensionInfo "Microsoft.Azure.Extensions" "B" "1.0" true "West US"
                 ; mkExtensionInfo "Microsoft.Azure.Extensions" "A" "2.0" false "" ], None))
    (fun _ _ _ _ => (mkReplicationStatusResponse
                 [ mkReplicationStatus "West US" "Completed"
                 ; mkReplicationStatus "East US" "Replicating" ], None))
    (fun _ _ => ("op-7f3a", None))
    (fun _ _ _ _ => ("op-91c2", None))
    (fun _ _ => None).

(** An environment in which the certificate file cannot be read. *)
Definition noCertEnv : Env unit :=
  mkEnv unit
    (fun path => ("", Some "open missing.pem: no such file or directory"))
    (fun _ _ => (tt, None))
    (fun _ => (mkListVersionsResponse [], None))
    (fun _ _ _ _ => (mkReplicationStatusResponse [], None))
    (fun _ _ => ("", None))
    (fun _ _ _ _ => ("", None))
    (fun _ _ => None).

Definition okContext : Context :=
  [ ("subscription-id", "c1a2"); ("subscription-cert", "cert.pem")
  ; ("namespace", "Microsoft.Azure.Extensions"); ("name", "FooExtension")
  ; ("version", "1.0.0") ].

(** The namespace is missing, and so is the certificate file. *)
Definition noNamespaceContext : Context :=
  [ ("subscription-id", "c1a2"); ("subscription-cert", "missing.pem")
  ; ("name", "FooExtension"); ("version", "1.0.0") ].

(** The document unpublish-version renders from the flags of a context. *)
Definition unpublishDocOf (c : Context) : string :=
  unpublishDoc (ctxString c flNamespace) (ctxString c flName) (ctxString c flVersion).

Definition fiveFlags : list string :=
  [flSubsID; flSubsCert; flNamespace; flName; flVersion].

(** ** Reading a document back

    A scanner for the markup of a document, to say which elements it holds:
    [<?...?>] is a declaration, [<!--...-->] a comment (a [>] inside either
    does not close it), [</name>] a closing tag, any other [<...>] an opening
    tag named by its first word; what lies between is text, kept as it is
    (entities are not decoded). *)
Module Xml.

Inductive Token : Type :=
| Decl (body : string)
| Comment (body : string)
| Open (name : string)
| Close (name : string)
| Text (text : string).

Inductive Mode : Type := InText | InMarkup.

Definition snoc (s : string) (a : ascii) : string := s ++ String a EmptyString.

Fixpoint hasSuffix (suffix s : string) : bool :=
  match s with
  | EmptyString => String.eqb suffix EmptyString
  | String _ s' => String.eqb suffix s || hasSuffix suffix s'
  end.

(** The first word of a tag. *)
Fixpoint tagName (body : string) : string :=
  match body with
  | EmptyString => EmptyString
  | String a body' =>
      if Ascii.eqb a " "%char || Ascii.eqb a "/"%char then EmptyString
      else String a (tagName body')
  end.

(** The markup read since [<], when a [>] arrives: the token it makes, or
    nothing when the [>] lies inside a comment or a declaration. *)
Definition closeMarkup (cur : string) : option Token :=
  let n := String.length cur in
  if String.prefix "!--" cur then
    if hasSuffix "--" cur && (5 <=? n)%nat then Some (Comment (substring 3 (n - 5) cur))
    else None
  else if String.prefix "?" cur then
    if hasSuffix "?" cur && (2 <=? n)%nat then Some (Decl (substring 1 (n - 2) cur))
    else None
  else if String.prefix "/" cur then Some (Close (substring 1 (n - 1) cur))
  else Some (Open (tagName cur)).

Fixpoint scan (s : string) (m : Mode) (cur : string) : list Token :=
  match s with
  | EmptyString =>
      match m with
      | InText => [Text cur]
      | InMarkup => [Text (String "<"%char cur)]
      end
  | String a s' =>
      match m with
      | InText =>
          if Ascii.eqb a "<"%char then Text cur :: scan s' InMarkup EmptyString
          else scan s' InText (snoc cur a)
      | InMarkup =>
          if Ascii.eqb a ">"%char then
            match closeMarkup cur with
            | Some tok => tok :: scan s' InText EmptyString
            | None => scan s' InMarkup (snoc cur a)
            end
          else scan s' InMarkup (snoc cur a)
      end
  end.

Definition tokens (doc : string) : list Token := scan doc InText EmptyString.

(** The elements that hold text only, with their text, in document order. *)
Fixpoint leavesOf (ts : list Token) : list (string * string) :=
  match ts with
  | [] => []
  | Open n :: ts' =>
      match ts' with
      | Text t :: Close n' :: ts'' =>
          if String.eqb n n' then (n, t) :: leavesOf ts'' else leavesOf ts'
      | _ => leavesOf ts'
      end
  | _ :: ts' => leavesOf ts'
  end.

Fixpoint commentsOf (ts : list Token) : list string :=
  match ts with
  | [] => []
  | Comment c :: ts' => c :: commentsOf ts'
  | _ :: ts' => commentsOf ts'
  end.

Definition leaves (doc : string) : list (string * string) := leavesOf (tokens doc).
Definition comments (doc : string) : list string := commentsOf (tokens doc).

End Xml.

(** A value that can stand in a document as it is: it holds neither [<]
    nor [&]. *)
Fixpoint plain (v : string) : bool :=
  match v with
  | EmptyString => true
  | String a v' =>
      negb (Ascii.eqb a "<"%char) && negb (Ascii.eqb a "&"%char) && plain v'
  end.

(** Standard output that accepts every write in full. *)
Definition accepts (stdout : Writer) : Prop :=
  forall written chunk, stdout written chunk = (String.length chunk, None).

Definition openStdout : Writer := fun _ chunk => (String.length chunk, None).

(** Standard output that is closed: every write is refused. *)
Definition closedStdout : Writer :=
  fun _ _ => (0, Some "write /dev/stdout: bad file descriptor").

(** Flag values that close their element, add elements of their own and
    open a comment over what the template puts next. *)
Definition markupContext : Context :=
  [ ("namespace", "Microsoft.Azure.Extensions"); ("name", "FooExtension")
  ; ("version", "1.0.0")
  ; ("label", "Foo</Label><MediaLink>http://example.com/foo.zip</MediaLink><!--")
  ; ("description",
     "--><Description>D</Description><IsInternalExtension>false</IsInternalExtension><!--")
  ; ("eula-url", "--><Eula>http://e"); ("privacy-url", "http://p")
  ; ("homepage-url", "http://h"); ("company", "Contoso"); ("supported-os", "Linux") ].

(** A namespace that closes its element and adds two elements. *)
Definition markupNamespace : string :=
  "N</ProviderNameSpace><MediaLink>http://example.com/foo.zip</MediaLink><IsInternalExtension>false</IsInternalExtension><ProviderNameSpace>N".

Definition markupNamespaceContext : Context :=
  [ ("subscription-id", "c1a2"); ("subscription-cert", "cert.pem")
  ; ("namespace", markupNamespace); ("name", "FooExtension"); ("version", "1.0.0") ].

(** ** [main]: the flags and the command table *)
Record StringFlag : Type := mkStringFlag { flag_Name : string; flag_Usage : string }.

Definition manifestFlag : StringFlag :=
  mkStringFlag flManifest
    "Path of XML manifest for extension package (output of new-extension-manifest)".
Definition subsIDFlag : StringFlag :=
  mkStringFlag flSubsID "Subscription ID for the publisher subscription".
Definition subsCertFlag : StringFlag :=
  mkStringFlag flSubsCert "Path of subscription management certificate (.pem) file".
Definition versionFlag : StringFlag :=
  mkStringFlag flVersion "Version of the extension package e.g. 1.0.0".
Definition namespaceFlag : StringFlag :=
  mkStringFlag flNamespace "Publisher namespace e.g. Microsoft.Azure.Extensions".
Definition nameFlag : StringFlag :=
  mkStringFlag flName "Name of the extension e.g. FooExtension".

(** [cli.Command]: the fields [main] sets. *)
Record cli_Command : Type := mkCommand {
  cmd_Name : string;
  cmd_Usage : string;
  cmd_Action : Context -> M unit;
  cmd_Flags : list StringFlag }.

(** [app.Commands], in the order of the source. *)
Definition appCommands {C} (env : Env C) (stdout : Writer) : list cli_Command :=
  [ mkCommand "new-extension-manifest"
      "Creates an XML file used to publish or update extension."
      (newExtensionManifest stdout)
      [ namespaceFlag; nameFlag; versionFlag
      ; mkStringFlag "label" "Human readable name of the extension"
      ; mkStringFlag "description" "Description of the extension"
      ; mkStringFlag "eula-url" "URL to the End-User License Agreement page"
      ; mkStringFlag "privacy-url" "URL to the Privacy Policy page"
      ; mkStringFlag "homepage-url" "URL to the homepage of the extension"
      ; mkStringFlag "company" "Human-readable Company Name of the publisher"
      ; mkStringFlag "supported-os" "Extension platform e.g. 'Linux'" ]
  ; mkCommand "list-versions"
      "Lists all published extension versions for subscription"
      (listVersions env)
      [subsIDFlag; subsCertFlag]
  ; mkCommand "replication-status"
      "Retrieves replication status for an uploaded extension package"
      (replicationStatus env)
      [subsIDFlag; subsCertFlag; namespaceFlag; nameFlag; versionFlag]
  ; mkCommand "unpublish-version"
      "Marks the specified version of the extension internal. Does not delete."
      (unpublishVersion env)
      [subsIDFlag; subsCertFlag; namespaceFlag; nameFlag; versionFlag]
  ; mkCommand "delete-version"
      "Deletes the extension version. It should be unpublished first."
      (deleteVersion env)
      [subsIDFlag; subsCertFlag; namespaceFlag; nameFlag; versionFlag] ].

(** Two contexts that give the same value to every flag of a list. *)
Definition agreeOn (flags : list string) (c c' : Context) : Prop :=
  forall fl, In fl flags -> ctxString c fl = ctxString c' fl.

(** ** Observations used by the further properties *)

(** The first flag of a list, in order, whose value is empty. *)
Fixpoint firstEmpty (c : Context) (flags : list string) : option string :=
  match flags with
  | [] => None
  | fl :: flags' =>
      if String.eqb (ctxString c fl) "" then Some fl else firstEmpty c flags'
  end.

Definition isFatal (e : Event) : bool :=
  match e with EvLog FatalLevel _ _ => true | _ => false end.

(** Reading the certificate and building the client. *)
Definition isSetup (e : Event) : bool :=
  match e with EvReadFile _ | EvNewClient _ _ => true | _ => false end.

(** The answer to the one request of a command: its error, and the
    operation id of a mutating call. *)
Definition requestError {C} (env : Env C) (cmd : Command) (c : Context) : option error :=
  let cl := theClient env c in
  let ns := ctxString c flNamespace in
  let name := ctxString c flName in
  let version := ctxString c flVersion in
  match cmd with
  | ListVersionsCmd => snd (ListVersions env cl)
  | ReplicationStatusCmd => snd (GetReplicationStatus env cl ns name version)
  | UnpublishVersionCmd => snd (UpdateExtension env cl (unpublishDocOf c))
  | DeleteVersionCmd => snd (DeleteExtension env cl ns name version)
  end.

Definition operationOf {C} (env : Env C) (cmd : Command) (c : Context) : string :=
  let cl := theClient env c in
  match cmd with
  | UnpublishVersionCmd => fst (UpdateExtension env cl (unpublishDocOf c))
  | DeleteVersionCmd =>
      fst (DeleteExtension env cl (ctxString c flNamespace) (ctxString c flName)
             (ctxString c flVersion))
  | _ => ""
  end.

(** The error of the wait that follows a mutating call; the two listing
    commands do not wait. *)
Definition waitError {C} (env : Env C) (cmd : Command) (c : Context) : option error :=
  match cmd with
  | UnpublishVersionCmd | DeleteVersionCmd =>
      WaitForOperation env (theClient env c) (operationOf env cmd c)
  | _ => None
  end.

Definition isMutating (cmd : Command) : bool :=
  match cmd with
  | UnpublishVersionCmd | DeleteVersionCmd => true
  | _ => false
  end.

(** The fatal entry a command writes when its request fails. The two
    listing commands use [log.Fatal], which prints the verb as it stands. *)
Definition requestFailure (cmd : Command) (e : error) : Event :=
  EvLog FatalLevel []
    match cmd with
    | ListVersionsCmd => "Request failed: %v" ++ e
    | ReplicationStatusCmd => "Cannot fetch replication status: %v" ++ e
    | UnpublishVersionCmd => "UpdateExtension failed: " ++ e
    | DeleteVersionCmd => "Error deleting version: " ++ e
    end.

(** The fatal entry a mutating command writes when the wait fails. *)
Definition waitFailure (cmd : Command) (op : string) (e : error) : Event :=
  match cmd with
  | UnpublishVersionCmd =>
      EvLog FatalLevel [("x-ms-operation-id", op)] ("UpdateExtension failed: " ++ e)
  | _ => EvLog FatalLevel [] ("DeleteExtension failed: " ++ e)
  end.

(** The entries that announce the end of a mutating command. *)
Definition isFinished (e : Event) : bool :=
  match e with
  | EvLog InfoLevel _ msg =>
      String.eqb msg "UpdateExtension operation finished."
      || String.eqb msg "DeleteExtension operation finished."
  | _ => false
  end.

(** An environment in which every request and every wait is refused. *)
Definition refusingEnv : Env unit :=
  mkEnv unit
    (fun path => ("-----BEGIN CERTIFICATE-----", None))
    (fun _ _ => (tt, None))
    (fun _ => (mkListVersionsResponse [], Some "403 Forbidden"))
    (fun _ _ _ _ => (mkReplicationStatusResponse [], Some "403 Forbidden"))
    (fun _ _ => ("", Some "403 Forbidden"))
    (fun _ _ _ _ => ("", Some "403 Forbidden"))
    (fun _ _ => Some "operation failed").

(** An environment in which the mutating calls are accepted and the wait
    fails. *)
Definition failingWaitEnv : Env unit :=
  mkEnv unit
    (fun path => ("-----BEGIN CERTIFICATE-----", None))
    (fun _ _ => (tt, None))
    (fun _ => (mkListVersionsResponse [], None))
    (fun _ _ _ _ => (mkReplicationStatusResponse [], None))
    (fun _ _ => ("op-7f3a", None))
    (fun _ _ _ _ => ("op-91c2", None))
    (fun _ _ => Some "operation failed").

(** * Properties *)

(** ** Strings *)
Lemma append_assoc (a b c : string) : (a ++ b) ++ c = a ++ b ++ c.
Proof. induction a as [|x a IH]; simpl; [reflexivity | now rewrite IH]. Qed.

Lemma append_nil_r (a : string) : a ++ "" = a.
Proof. induction a as [|x a IH]; simpl; [reflexivity | now rewrite IH]. Qed.

(** ** The monad *)
Lemma bind_ret {A B} (a : A) (f : A -> M B) : bind (ret a) f = f a.
Proof. unfold bind, ret. now destruct (f a). Qed.

Lemma bind_exit {A B} (t : list Event) (code : nat) (f : A -> M B) :
  bind (t, Exit code) f = (t, Exit code).
Proof. reflexivity. Qed.

Lemma checkFlag_empty (c : Context) (fl : string) :
  ctxString c fl = "" -> checkFlag c fl = ([missingArgument fl], Exit 1).
Proof. intros H. unfold checkFlag. rewrite H. reflexivity. Qed.

Lemma checkFlag_set (c : Context) (fl : string) :
  ctxString c fl <> "" -> checkFlag c fl = ret (ctxString c fl).
Proof.
  intros H. unfold checkFlag. apply String.eqb_neq in H. rewrite H. reflexivity.
Qed.

(** ** The templates parse, and execute to the documents *)
Lemma unpublishManifestXml_parses :
  Template.Parse unpublishManifestXml = inr
    [ Template.TextNode (joinLines [xmlDecl; rootOpen; orderingWarning; "  <ProviderNameSpace>"])
    ; Template.FieldNode "Namespace"
    ; Template.TextNode (joinLines ["</ProviderNameSpace>"; "  <Type>"])
    ; Template.FieldNode "Name"
    ; Template.TextNode (joinLines ["</Type>"; "  <Version>"])
    ; Template.FieldNode "Version"
    ; Template.TextNode (joinLines
        [ "</Version>"; "  <IsInternalExtension>true</IsInternalExtension>"
        ; "  <IsJsonExtension>true</IsJsonExtension>"; "</ExtensionImage>" ]) ].
Proof. vm_compute. reflexivity. Qed.

Lemma newManifestXml_parses :
  Template.Parse newManifestXml = inr
    [ Template.TextNode (joinLines [xmlDecl; rootOpen; orderingWarning; "  <ProviderNameSpace>"])
    ; Template.FieldNode "Namespace"
    ; Template.TextNode (joinLines ["</ProviderNameSpace>"; "  <Type>"])
    ; Template.FieldNode "Name"
    ; Template.TextNode (joinLines ["</Type>"; "  <Version>"])
    ; Template.FieldNode "Version"
    ; Template.TextNode (joinLines ["</Version>"; "  <Label>"])
    ; Template.FieldNode "Label"
    ; Template.TextNode (joinLines
        [ "</Label>"; "  <HostingResources>VmRole</HostingResources>"
        ; "  <MediaLink>%BLOB_URL%</MediaLink>"; "  <Description>" ])
    ; Template.FieldNode "Description"
    ; Template.TextNode (joinLines
        [ "</Description>"; "  <IsInternalExtension>true</IsInternalExtension>"; "  <Eula>" ])
    ; Template.FieldNode "Eula"
    ; Template.TextNode (joinLines ["</Eula>"; "  <PrivacyUri>"])
    ; Template.FieldNode "Privacy"
    ; Template.TextNode (joinLines ["</PrivacyUri>"; "  <HomepageUri>"])
    ; Template.FieldNode "Homepage"
    ; Template.TextNode (joinLines
        [ "</HomepageUri>"; "  <IsJsonExtension>true</IsJsonExtension>"; "  <CompanyName>" ])
    ; Template.FieldNode "Company"
    ; Template.TextNode (joinLines ["</CompanyName>"; "  <SupportedOS>"])
    ; Template.FieldNode "OS"
    ; Template.TextNode (joinLines
        [ "</SupportedOS>"; "  <!--%REGIONS%-->"; "</ExtensionImage>"; "" ]) ].
Proof. vm_compute. reflexivity. Qed.

Ltac string_normalize :=
  cbn; repeat (rewrite append_assoc; cbn).

Lemma unpublish_executes (tpl : Template.Template) (ns name version : string) :
  Template.Parse unpublishManifestXml = inr tpl ->
  Template.Execute tpl (unpublishData ns name version)
  = (unpublishDoc ns name version, None).
Proof.
  rewrite unpublishManifestXml_parses. intros [= <-].
  unfold unpublishDoc, extensionImage, unpublishChildren, element.
  string_normalize. reflexivity.
Qed.

Lemma newManifest_executes (tpl : Template.Template) (p : ManifestParams) :
  Template.Parse newManifestXml = inr tpl ->
  Template.Execute tpl (manifestData p) = (newManifestDoc p, None).
Proof.
  rewrite newManifestXml_parses. intros [= <-].
  unfold newManifestDoc, extensionImage, newManifestChildren, element.
  string_normalize. reflexivity.
Qed.

(** ** new-extension-manifest *)
Lemma fillParams_missing (c : Context) flags (p : ManifestParams) :
  (exists fl, In fl (map snd flags) /\ ctxString c fl = "") ->
  exists fl, In fl (map snd flags) /\ ctxString c fl = "" /\
             fillParams c flags p = ([missingArgument fl], Exit 1).
Proof.
  revert p. induction flags as [|[ref fl0] flags IH]; intros p (fl & Hin & He).
  - destruct Hin.
  - simpl. destruct (string_dec (ctxString c fl0) "") as [E|E].
    + exists fl0. rewrite (checkFlag_empty _ _ E). auto.
    + rewrite (checkFlag_set _ _ E), bind_ret.
      destruct Hin as [<-|Hin]; [contradiction|].
      destruct (IH (ref p (ctxString c fl0))) as (fl' & Hin' & He' & Hrun);
        [now exists fl|].
      exists fl'. auto.
Qed.

Lemma fillParams_set (c : Context) flags (p : ManifestParams) :
  (forall fl, In fl (map snd flags) -> ctxString c fl <> "") ->
  fillParams c flags p
  = ret (fold_left (fun q f => fst f q (ctxString c (snd f))) flags p).
Proof.
  revert p. induction flags as [|[ref fl0] flags IH]; intros p Hset; simpl.
  - reflexivity.
  - rewrite checkFlag_set, bind_ret by (apply Hset; now left).
    apply IH. intros fl Hin. apply Hset. now right.
Qed.


Lemma substring_all (s : string) : substring 0 (String.length s) s = s.
Proof. induction s as [|a s IH]; simpl; [reflexivity | now rewrite IH]. Qed.

(** On a standard output that accepts every write, executing to it gives
    what executing to a buffer gives. *)
Lemma executeNodes_accepting (stdout : Writer) (t : Template.Template) (d : Template.Data) :
  accepts stdout ->
  forall written,
    outcome (executeNodes stdout t d written) = Done (snd (Template.Execute t d)) /\
    stdoutText (trace (executeNodes stdout t d written)) = fst (Template.Execute t d).
Proof.
  intros Hacc.
  assert (Hchunk : forall chunk (k : M (option error)) out err,
            outcome k = Done err -> stdoutText (trace k) = out ->
            outcome ((if String.eqb chunk "" then ret tt else emit (EvStdout chunk)) ;; k)
            = Done err /\
            stdoutText (trace ((if String.eqb chunk "" then ret tt
                                else emit (EvStdout chunk)) ;; k))
            = chunk ++ out).
  { intros chunk [t0 r] out err Ho Ht. cbn in Ho, Ht.
    destruct (String.eqb_spec chunk "") as [->|_]; cbn; auto.
    now rewrite Ht. }
  induction t as [|n t IH]; intros written; [split; reflexivity|].
  cbn [executeNodes Template.Execute].
  destruct n as [s|f]; cbn [Template.printed].
  - rewrite Hacc, substring_all.
    destruct (IH (written ++ s)) as [Ho Ht].
    destruct (Template.Execute t d) as [out err]. now apply Hchunk.
  - destruct (Template.field d f) as [v|]; [|split; reflexivity].
    rewrite Hacc, substring_all.
    destruct (IH (written ++ v)) as [Ho Ht].
    destruct (Template.Execute t d) as [out err]. now apply Hchunk.
Qed.

Lemma newExtensionManifest_emits (stdout : Writer) (c : Context) :
  (forall fl, In fl tenFlags -> ctxString c fl <> "") ->
  accepts stdout ->
  outcome (newExtensionManifest stdout c) = Done tt /\
  stdoutText (trace (newExtensionManifest stdout c)) = newManifestDoc (paramsOf c).
Proof.
  intros Hset Hacc. unfold newExtensionManifest.
  rewrite fillParams_set by exact Hset. rewrite bind_ret.
  change (fold_left _ manifestFlags zeroParams) with (paramsOf c).
  destruct (Template.Parse newManifestXml) as [e|tpl] eqn:Hp.
  - rewrite newManifestXml_parses in Hp. discriminate.
  - unfold executeToStdout.
    destruct (executeNodes_accepting stdout tpl (manifestData (paramsOf c)) Hacc "")
      as [Ho Ht].
    rewrite (newManifest_executes _ _ Hp) in Ho, Ht. cbn [fst snd] in Ho, Ht.
    destruct (executeNodes stdout tpl (manifestData (paramsOf c)) "") as [t0 r].
    cbn in Ho, Ht. subst r. cbn. now rewrite app_nil_r.
Qed.

(** What the scanner reads in a value without markup is that value. *)
Lemma scan_plain (v rest cur : string) :
  plain v = true ->
  Xml.scan (v ++ rest) Xml.InText cur = Xml.scan rest Xml.InText (cur ++ v).
Proof.
  revert cur. induction v as [|a v IH]; intros cur Hv; simpl.
  - now rewrite append_nil_r.
  - simpl in Hv. apply andb_prop in Hv. destruct Hv as [Ha Hv].
    apply andb_prop in Ha. destruct Ha as [Ha _].
    apply negb_true_iff in Ha. rewrite Ha.
    rewrite (IH _ Hv). unfold Xml.snoc. now rewrite append_assoc.
Qed.

Lemma newManifestDoc_leaves (p : ManifestParams) :
  plain (p_Namespace p) = true -> plain (p_Name p) = true -> plain (p_Version p) = true ->
  plain (p_Label p) = true -> plain (p_Description p) = true -> plain (p_Eula p) = true ->
  plain (p_Privacy p) = true -> plain (p_Homepage p) = true ->
  plain (p_Company p) = true -> plain (p_OS p) = true ->
  Xml.leaves (newManifestDoc p) = newManifestChildren p /\
  Xml.comments (newManifestDoc p)
  = [" WARNING: Ordering of fields matter in this file. "; "%REGIONS%"].
Proof.
  intros.
  unfold Xml.leaves, Xml.comments, Xml.tokens, newManifestDoc, extensionImage,
    newManifestChildren, element.
  string_normalize.
  repeat (rewrite scan_plain by assumption; cbn).
  split; reflexivity.
Qed.

Lemma unpublishDoc_leaves (ns name version : string) :
  plain ns = true -> plain name = true -> plain version = true ->
  Xml.leaves (unpublishDoc ns name version) = unpublishChildren ns name version.
Proof.
  intros.
  unfold Xml.leaves, Xml.tokens, unpublishDoc, extensionImage, unpublishChildren, element.
  string_normalize.
  repeat (rewrite scan_plain by assumption; cbn).
  reflexivity.
Qed.

(** C9. new-extension-manifest requires all ten of its string flags: when
    any one of them is empty the command exits with status 1, its only event
    being the fatal entry that names an empty flag, and nothing is written
    to standard output. *)
Theorem newExtensionManifest_requires_all_flags (stdout : Writer) (c : Context) :
  (exists fl, In fl tenFlags /\ ctxString c fl = "") ->
  outcome (newExtensionManifest stdout c) = Exit 1 /\
  outputs (trace (newExtensionManifest stdout c)) = [] /\
  exists fl, In fl tenFlags /\ ctxString c fl = "" /\
             trace (newExtensionManifest stdout c) = [missingArgument fl].
Proof.
  intros H.
  destruct (fillParams_missing c manifestFlags zeroParams H) as (fl & Hin & He & Hrun).
  unfold newExtensionManifest. rewrite Hrun, bind_exit.
  repeat split; try reflexivity.
  exists fl. auto.
Qed.

Lemma newExtensionManifest_requires_all_flags_witness :
  let c := [("namespace", "Microsoft.Azure.Extensions"); ("name", "FooExtension");
            ("version", "1.0.0"); ("label", "Foo"); ("description", "");
            ("eula-url", "http://e"); ("privacy-url", "http://p");
            ("homepage-url", "http://h"); ("company", "Contoso");
            ("supported-os", "Linux")] in
  outcome (newExtensionManifest openStdout c) = Exit 1 /\
  outputs (trace (newExtensionManifest openStdout c)) = [] /\
  exists fl, In fl tenFlags /\ ctxString c fl = "" /\
             trace (newExtensionManifest openStdout c) = [missingArgument fl].
Proof.
  intro c. apply (newExtensionManifest_requires_all_flags openStdout c).
  exists "description". split; [simpl; tauto | reflexivity].
Defined.

(** C10, as the code has it. When the ten flags are set, their values hold
    no markup character and standard output accepts the writes,
    new-extension-manifest ends normally and what it has written is the
    template with the values in place: read back, its elements are the
    fourteen of the template, with MediaLink the literal placeholder
    %BLOB_URL% and IsInternalExtension true, and its comments are the
    ordering warning and %REGIONS%. *)
Theorem newExtensionManifest_is_a_template (stdout : Writer) (c : Context) :
  (forall fl, In fl tenFlags -> ctxString c fl <> "") ->
  (forall fl, In fl tenFlags -> plain (ctxString c fl) = true) ->
  accepts stdout ->
  outcome (newExtensionManifest stdout c) = Done tt /\
  stdoutText (trace (newExtensionManifest stdout c)) = newManifestDoc (paramsOf c) /\
  Xml.leaves (stdoutText (trace (newExtensionManifest stdout c)))
  = [ ("ProviderNameSpace", ctxString c "namespace"); ("Type", ctxString c "name")
    ; ("Version", ctxString c "version"); ("Label", ctxString c "label")
    ; ("HostingResources", "VmRole"); ("MediaLink", "%BLOB_URL%")
    ; ("Description", ctxString c "description"); ("IsInternalExtension", "true")
    ; ("Eula", ctxString c "eula-url"); ("PrivacyUri", ctxString c "privacy-url")
    ; ("HomepageUri", ctxString c "homepage-url"); ("IsJsonExtension", "true")
    ; ("CompanyName", ctxString c "company"); ("SupportedOS", ctxString c "supported-os") ] /\
  Xml.comments (stdoutText (trace (newExtensionManifest stdout c)))
  = [" WARNING: Ordering of fields matter in this file. "; "%REGIONS%"].
Proof.
  intros Hset Hplain Hacc.
  destruct (newExtensionManifest_emits stdout c Hset Hacc) as [Ho Ht].
  rewrite Ht. split; [exact Ho|]. split; [reflexivity|].
  apply (newManifestDoc_leaves (paramsOf c)); apply Hplain; simpl; tauto.
Qed.

Lemma fullContext_set : forall fl, In fl tenFlags -> ctxString fullContext fl <> "".
Proof.
  intros fl Hin. simpl in Hin.
  repeat (destruct Hin as [<-|Hin]; [vm_compute; discriminate|]).
  destruct Hin.
Qed.

Lemma fullContext_plain : forall fl, In fl tenFlags -> plain (ctxString fullContext fl) = true.
Proof.
  intros fl Hin. simpl in Hin.
  repeat (destruct Hin as [<-|Hin]; [reflexivity|]).
  destruct Hin.
Qed.

Lemma openStdout_accepts : accepts openStdout.
Proof. intros written chunk. reflexivity. Qed.

Lemma newExtensionManifest_is_a_template_witness :
  outcome (newExtensionManifest openStdout fullContext) = Done tt /\
  stdoutText (trace (newExtensionManifest openStdout fullContext))
  = newManifestDoc (paramsOf fullContext) /\
  Xml.leaves (stdoutText (trace (newExtensionManifest openStdout fullContext)))
  = [ ("ProviderNameSpace", "Microsoft.Azure.Extensions"); ("Type", "FooExtension")
    ; ("Version", "1.0.0"); ("Label", "Foo")
    ; ("HostingResources", "VmRole"); ("MediaLink", "%BLOB_URL%")
    ; ("Description", "A test extension"); ("IsInternalExtension", "true")
    ; ("Eula", "http://e"); ("PrivacyUri", "http://p")
    ; ("HomepageUri", "http://h"); ("IsJsonExtension", "true")
    ; ("CompanyName", "Contoso"); ("SupportedOS", "Linux") ] /\
  Xml.comments (stdoutText (trace (newExtensionManifest openStdout fullContext)))
  = [" WARNING: Ordering of fields matter in this file. "; "%REGIONS%"].
Proof.
  exact (newExtensionManifest_is_a_template openStdout fullContext
           fullContext_set fullContext_plain openStdout_accepts).
Defined.

(** C10 as stated fails: flag values are written as they are, so a label
    and a description that hold markup give a manifest whose MediaLink is a
    real address and whose IsInternalExtension is false, the elements of the
    template lying inside comments. *)
Lemma markup_in_a_flag_replaces_the_placeholder :
  (forall fl, In fl tenFlags -> ctxString markupContext fl <> "") /\
  outcome (newExtensionManifest openStdout markupContext) = Done tt /\
  In ("MediaLink", "http://example.com/foo.zip")
     (Xml.leaves (stdoutText (trace (newExtensionManifest openStdout markupContext)))) /\
  ~ In ("MediaLink", "%BLOB_URL%")
       (Xml.leaves (stdoutText (trace (newExtensionManifest openStdout markupContext)))) /\
  In ("IsInternalExtension", "false")
     (Xml.leaves (stdoutText (trace (newExtensionManifest openStdout markupContext)))) /\
  ~ In ("IsInternalExtension", "true")
       (Xml.leaves (stdoutText (trace (newExtensionManifest openStdout markupContext)))).
Proof.
  split.
  { intros fl Hin. simpl in Hin.
    repeat (destruct Hin as [<-|Hin]; [vm_compute; discriminate|]). destruct Hin. }
  split; [reflexivity|].
  repeat split.
  - vm_compute. do 4 right. left. reflexivity.
  - vm_compute. intros H. repeat (destruct H as [H|H]; [discriminate H|]). exact H.
  - vm_compute. do 6 right. left. reflexivity.
  - vm_compute. intros H. repeat (destruct H as [H|H]; [discriminate H|]). exact H.
Qed.

(** ** The commands that build a client *)
Lemma bind_ext {A B} (m : M A) (f g : A -> M B) :
  (forall a, f a = g a) -> bind m f = bind m g.
Proof. intros H. destruct m as [t [a|code]]; simpl; [now rewrite H | reflexivity]. Qed.

Lemma appendRows_from {A} (row : A -> list string) (xs : list A) (acc : list (list string)) :
  fold_left (fun data x => (data ++ [row x])%list) xs acc = (acc ++ map row xs)%list.
Proof.
  revert acc. induction xs as [|x xs IH]; intros acc; simpl.
  - now rewrite app_nil_r.
  - rewrite IH, <- app_assoc. reflexivity.
Qed.

Lemma appendRows_map {A} (row : A -> list string) (xs : list A) :
  appendRows row xs = map row xs.
Proof. unfold appendRows. now rewrite appendRows_from. Qed.

(** [unpublishVersion] with its template parsed and executed. *)
Lemma unpublishVersion_rendered C (env : Env C) (c : Context) :
  unpublishVersion env c =
  (ns <- checkFlag c flNamespace ;;
   name <- checkFlag c flName ;;
   version <- checkFlag c flVersion ;;
   subscriptionID <- checkFlag c flSubsID ;;
   certFile <- checkFlag c flSubsCert ;;
   cl <- mkClient env subscriptionID certFile ;;
   '(op, err) <- call (EvUpdateExtension (unpublishDoc ns name version))
                      (UpdateExtension env cl (unpublishDoc ns name version)) ;;
   ifErr err (fun e => log_Fatalf ("UpdateExtension failed: " ++ e)) ;;
   entry_Info [("x-ms-operation-id", op)] "UpdateExtension operation started." ;;
   err <- call (EvWaitForOperation op) (WaitForOperation env cl op) ;;
   ifErr err (fun e => entry_Fatalf [("x-ms-operation-id", op)] ("UpdateExtension failed: " ++ e)) ;;
   entry_Info [("x-ms-operation-id", op)] "UpdateExtension operation finished.").
Proof.
  unfold unpublishVersion.
  apply bind_ext; intros ns. apply bind_ext; intros name. apply bind_ext; intros version.
  destruct (Template.Parse unpublishManifestXml) as [e|tpl] eqn:Hp.
  - rewrite unpublishManifestXml_parses in Hp. discriminate.
  - rewrite (unpublish_executes _ _ _ _ Hp). unfold ifErr at 1. rewrite bind_ret.
    reflexivity.
Qed.

Ltac unfold_cmd :=
  unfold run, listVersions, replicationStatus, deleteVersion, mkClient,
    checkFlag, call, ifErr, log_Fatal, log_Fatalf, log_Info, log_Debug,
    entry_Info, entry_Fatalf, Render, emit, os_Exit, ret, bind, trace, outcome,
    clientBuilt, theClient, certBytes.

Ltac case_step :=
  match goal with
  | |- context [String.eqb (ctxString ?c ?fl) ""] =>
      destruct (String.eqb_spec (ctxString c fl) "")
  | |- context [ReadFile ?e ?p] => destruct (ReadFile e p) as [? [?|]]
  | |- context [NewClient ?e ?a ?b] => destruct (NewClient e a b) as [? [?|]]
  | |- context [ListVersions ?e ?a] => destruct (ListVersions e a) as [? [?|]]
  | |- context [GetReplicationStatus ?e ?a ?b ?c ?d] =>
      destruct (GetReplicationStatus e a b c d) as [? [?|]]
  | |- context [UpdateExtension ?e ?a ?b] => destruct (UpdateExtension e a b) as [? [?|]]
  | |- context [DeleteExtension ?e ?a ?b ?c ?d] =>
      destruct (DeleteExtension e a b c d) as [? [?|]]
  | |- context [WaitForOperation ?e ?a ?b] => destruct (WaitForOperation e a b) as [?|]
  end.

Ltac run_cases := unfold_cmd; cbn; repeat (case_step; cbn).

Arguments unpublishDoc : simpl never.

(** C8, as the code has it. Whatever body unpublish-version submits is
    the template of the command with the three flag values written into it
    as they are, and IsInternalExtension and IsJsonExtension the literal
    true. When the three values hold no markup character, the elements of
    that body are exactly ProviderNameSpace, Type, Version,
    IsInternalExtension and IsJsonExtension, in that order, with those
    values. *)
Theorem unpublish_body C (env : Env C) (c : Context) (body : string) :
  In (EvUpdateExtension body) (trace (unpublishVersion env c)) ->
  body = extensionImage
           [ ("ProviderNameSpace", ctxString c flNamespace)
           ; ("Type", ctxString c flName)
           ; ("Version", ctxString c flVersion)
           ; ("IsInternalExtension", "true")
           ; ("IsJsonExtension", "true") ]
           ["</ExtensionImage>"] /\
  (plain (ctxString c flNamespace) = true ->
   plain (ctxString c flName) = true ->
   plain (ctxString c flVersion) = true ->
   Xml.leaves body
   = [ ("ProviderNameSpace", ctxString c flNamespace)
     ; ("Type", ctxString c flName)
     ; ("Version", ctxString c flVersion)
     ; ("IsInternalExtension", "true")
     ; ("IsJsonExtension", "true") ]).
Proof.
  intros Hin.
  assert (Hbody : body = unpublishDoc (ctxString c flNamespace) (ctxString c flName)
                           (ctxString c flVersion)).
  { revert Hin. rewrite unpublishVersion_rendered. run_cases.
    all: intros H; repeat (destruct H as [H|H]; try discriminate H); try contradiction.
    all: now injection H as <-. }
  split; [exact Hbody|].
  intros Hns Hname Hversion. rewrite Hbody.
  now apply unpublishDoc_leaves.
Qed.

Lemma unpublish_body_witness :
  unpublishDoc "Microsoft.Azure.Extensions" "FooExtension" "1.0.0"
  = extensionImage
      [ ("ProviderNameSpace", ctxString okContext flNamespace)
      ; ("Type", ctxString okContext flName)
      ; ("Version", ctxString okContext flVersion)
      ; ("IsInternalExtension", "true")
      ; ("IsJsonExtension", "true") ]
      ["</ExtensionImage>"] /\
  Xml.leaves (unpublishDoc "Microsoft.Azure.Extensions" "FooExtension" "1.0.0")
  = [ ("ProviderNameSpace", "Microsoft.Azure.Extensions")
    ; ("Type", "FooExtension")
    ; ("Version", "1.0.0")
    ; ("IsInternalExtension", "true")
    ; ("IsJsonExtension", "true") ].
Proof.
  destruct (unpublish_body unit okEnv okContext
              (unpublishDoc "Microsoft.Azure.Extensions" "FooExtension" "1.0.0"))
    as [Hbody Hleaves].
  - vm_compute. do 2 right. left. reflexivity.
  - split; [exact Hbody|].
    apply Hleaves; reflexivity.
Defined.

(** C8 as stated fails: the values are not escaped, so a namespace that
    holds markup gives a body with elements beyond the five, here a
    MediaLink and an IsInternalExtension that is false. *)
Lemma markup_in_the_namespace_adds_elements :
  ctxString markupNamespaceContext flNamespace = markupNamespace /\
  In (EvUpdateExtension (unpublishDoc markupNamespace "FooExtension" "1.0.0"))
     (trace (unpublishVersion okEnv markupNamespaceContext)) /\
  Xml.leaves (unpublishDoc markupNamespace "FooExtension" "1.0.0")
  = [ ("ProviderNameSpace", "N")
    ; ("MediaLink", "http://example.com/foo.zip")
    ; ("IsInternalExtension", "false")
    ; ("ProviderNameSpace", "N")
    ; ("Type", "FooExtension")
    ; ("Version", "1.0.0")
    ; ("IsInternalExtension", "true")
    ; ("IsJsonExtension", "true") ].
Proof.
  split; [reflexivity|]. split.
  - vm_compute. do 2 right. left. reflexivity.
  - vm_compute. reflexivity.
Qed.

Ltac flag_is_set Hset :=
  match goal with
  | E : ctxString _ ?fl = "" |- _ =>
      exfalso; apply (Hset fl); [simpl; tauto | exact E]
  end.

Ltac name_missing_flag :=
  first
    [ exists flSubsID; split; [simpl; tauto | split; [assumption | reflexivity]]
    | exists flSubsCert; split; [simpl; tauto | split; [assumption | reflexivity]]
    | exists flNamespace; split; [simpl; tauto | split; [assumption | reflexivity]]
    | exists flName; split; [simpl; tauto | split; [assumption | reflexivity]]
    | exists flVersion; split; [simpl; tauto | split; [assumption | reflexivity]] ].

Ltac refute_precedence H :=
  let fl := fresh "fl" in
  let Hin := fresh "Hin" in
  let He := fresh "He" in
  destruct H as [(fl & Hin & He) | [? ?]];
  [ simpl in Hin; repeat (destruct Hin as [<-|Hin]; [contradiction|]); destruct Hin
  | discriminate ].

(** C1, as the code has it. When a required flag of a client-backed command
    is empty, the command exits with status 1 and has called no method of
    the client: no request is issued. The fatal entry is the one of the
    missing argument whenever the empty flag is among those checked before
    the client is built (every flag of list-versions and unpublish-version,
    the subscription id and the certificate path of the other two), or
    whenever building the client succeeds. *)
Theorem empty_flag_aborts_before_any_request C (env : Env C) (cmd : Command) (c : Context) :
  (exists fl, In fl (commandFlags cmd) /\ ctxString c fl = "") ->
  requests (trace (run env cmd c)) = [] /\
  outcome (run env cmd c) = Exit 1 /\
  ((exists fl, In fl (checkedBeforeClient cmd) /\ ctxString c fl = "") \/ clientBuilt env c ->
   exists fl, In fl (commandFlags cmd) /\ ctxString c fl = "" /\
              last (trace (run env cmd c)) (EvStdout "") = missingArgument fl).
Proof.
  intros (fl & Hin & He).
  destruct cmd; simpl in Hin; unfold run; try rewrite unpublishVersion_rendered.
  all: repeat (destruct Hin as [<-|Hin]; [|]); try destruct Hin.
  all: run_cases; try contradiction.
  all: split; [reflexivity|]; split; [reflexivity|]; intros Hpre.
  all: first [ name_missing_flag | refute_precedence Hpre ].
Qed.

Lemma empty_flag_aborts_before_any_request_witness :
  requests (trace (run okEnv DeleteVersionCmd (tl okContext))) = [] /\
  outcome (run okEnv DeleteVersionCmd (tl okContext)) = Exit 1 /\
  ((exists fl, In fl (checkedBeforeClient DeleteVersionCmd) /\ ctxString (tl okContext) fl = "")
   \/ clientBuilt okEnv (tl okContext) ->
   exists fl, In fl (commandFlags DeleteVersionCmd) /\ ctxString (tl okContext) fl = "" /\
              last (trace (run okEnv DeleteVersionCmd (tl okContext))) (EvStdout "")
              = missingArgument fl).
Proof.
  apply (empty_flag_aborts_before_any_request unit okEnv DeleteVersionCmd (tl okContext)).
  exists flSubsID. split; [simpl; tauto | reflexivity].
Defined.

(** C1 as stated fails: replication-status with an empty namespace and an
    unreadable certificate file stops in [mkClient], with the certificate
    error and no missing-argument entry. *)
Lemma empty_flag_may_fail_with_certificate_error :
  In flNamespace (commandFlags ReplicationStatusCmd) /\
  ctxString noNamespaceContext flNamespace = "" /\
  trace (run noCertEnv ReplicationStatusCmd noNamespaceContext)
  = [ EvReadFile "missing.pem"
    ; EvLog FatalLevel []
        "Cannot read certificate %s: %vmissing.pemopen missing.pem: no such file or directory" ] /\
  ~ (exists fl, In (missingArgument fl)
                  (trace (run noCertEnv ReplicationStatusCmd noNamespaceContext))).
Proof.
  split; [simpl; tauto|]. split; [reflexivity|]. split; [reflexivity|].
  intros (fl & Hin). vm_compute in Hin.
  destruct Hin as [H|[H|[]]]; discriminate H.
Qed.


(** C2. With the flags set, the client built and a response returned
    without error, list-versions ends normally having rendered exactly one
    table, whose rows are the entries of the response in the order of the
    response: as many rows as entries, row [i] made from entry [i].
    Likewise for replication-status and the statuses of its response. *)
Theorem rows_follow_response_order C (env : Env C) (c : Context) :
  clientBuilt env c ->
  (flagsSet c [flSubsID; flSubsCert] ->
   forall v, ListVersions env (theClient env c) = (v, None) ->
   outcome (listVersions env c) = Done tt /\
   exists rows,
     outputs (trace (listVersions env c)) = [EvTable versionsHeader rows] /\
     rows = map versionRow (Extensions v) /\
     length rows = length (Extensions v) /\
     forall i, nth_error rows i = option_map versionRow (nth_error (Extensions v) i)) /\
  (flagsSet c fiveFlags ->
   forall rs,
     GetReplicationStatus env (theClient env c)
       (ctxString c flNamespace) (ctxString c flName) (ctxString c flVersion) = (rs, None) ->
     outcome (replicationStatus env c) = Done tt /\
     exists rows,
       outputs (trace (replicationStatus env c)) = [EvTable statusHeader rows] /\
       rows = map statusRow (Statuses rs) /\
       length rows = length (Statuses rs) /\
       forall i, nth_error rows i = option_map statusRow (nth_error (Statuses rs) i)).
Proof.
  intros Hbuilt. split; intros Hset resp; revert Hbuilt.
  - run_cases; try flag_is_set Hset.
    all: intros [H1 H2]; try discriminate.
    all: intros Heq; try discriminate Heq; injection Heq as <-.
    split; [reflexivity|]. rewrite appendRows_map. eexists.
    split; [reflexivity|]. split; [reflexivity|]. split; [apply length_map|].
    intros i. apply nth_error_map.
  - run_cases; try flag_is_set Hset.
    all: intros [H1 H2]; try discriminate.
    all: intros Heq; try discriminate Heq; injection Heq as <-.
    split; [reflexivity|]. rewrite appendRows_map. eexists.
    split; [reflexivity|]. split; [reflexivity|]. split; [apply length_map|].
    intros i. apply nth_error_map.
Qed.

Lemma okContext_set : flagsSet okContext fiveFlags.
Proof.
  intros fl Hin. simpl in Hin.
  repeat (destruct Hin as [<-|Hin]; [vm_compute; discriminate|]).
  destruct Hin.
Qed.

Lemma okEnv_builds : clientBuilt okEnv okContext.
Proof. split; reflexivity. Qed.

(** The scenario of the specification: a response [B, A] is rendered as the
    rows of B then A; and the two statuses of a replication response in
    their order. *)
Lemma rows_follow_response_order_witness :
  outputs (trace (listVersions okEnv okContext))
  = [ EvTable versionsHeader
        [ ["Microsoft.Azure.Extensions"; "B"; "1.0"; "true"; "West US"]
        ; ["Microsoft.Azure.Extensions"; "A"; "2.0"; "false"; ""] ] ] /\
  outputs (trace (replicationStatus okEnv okContext))
  = [ EvTable statusHeader [["West US"; "Completed"]; ["East US"; "Replicating"]] ].
Proof.
  destruct (rows_follow_response_order unit okEnv okContext okEnv_builds)
    as [Hlist Hstatus].
  assert (Hs : flagsSet okContext [flSubsID; flSubsCert]).
  { intros fl Hin. apply okContext_set. simpl in *. tauto. }
  split.
  - destruct (Hlist Hs _ eq_refl) as (_ & rows & Hout & -> & _). exact Hout.
  - destruct (Hstatus okContext_set _ eq_refl) as (_ & rows & Hout & -> & _). exact Hout.
Defined.

(** C3. With its five flags set and the client built, the first method
    unpublish-version calls on the client is [UpdateExtension], on the
    unpublish document rendered from the flags; the only other call is the
    [WaitForOperation] that follows when the update was accepted. The client
    has no method for unpublishing: the document is all that makes this
    update an unpublish. *)
Theorem unpublish_is_an_update C (env : Env C) (c : Context) :
  flagsSet c fiveFlags -> clientBuilt env c ->
  requests (trace (unpublishVersion env c))
  = EvUpdateExtension (unpublishDocOf c)
    :: match UpdateExtension env (theClient env c) (unpublishDocOf c) with
       | (op, None) => [EvWaitForOperation op]
       | (_, Some _) => []
       end.
Proof.
  intros Hset. rewrite unpublishVersion_rendered. unfold unpublishDocOf.
  run_cases; try flag_is_set Hset.
  all: intros [H1 H2]; try discriminate; reflexivity.
Qed.

Lemma unpublish_is_an_update_witness :
  requests (trace (unpublishVersion okEnv okContext))
  = [ EvUpdateExtension (unpublishDoc "Microsoft.Azure.Extensions" "FooExtension" "1.0.0")
    ; EvWaitForOperation "op-7f3a" ].
Proof.
  exact (unpublish_is_an_update unit okEnv okContext okContext_set okEnv_builds).
Defined.

(** C6. When [UpdateExtension] (in unpublish-version) or [DeleteExtension]
    (in delete-version) returns an operation id without error, the command
    calls [WaitForOperation] exactly once, after the mutating call, on that
    very string. *)
Theorem operation_id_is_handed_to_wait C (env : Env C) (c : Context) (op : string) :
  flagsSet c fiveFlags -> clientBuilt env c ->
  (UpdateExtension env (theClient env c) (unpublishDocOf c) = (op, None) ->
   requests (trace (unpublishVersion env c))
   = [EvUpdateExtension (unpublishDocOf c); EvWaitForOperation op] /\
   waits (trace (unpublishVersion env c)) = [EvWaitForOperation op]) /\
  (DeleteExtension env (theClient env c)
     (ctxString c flNamespace) (ctxString c flName) (ctxString c flVersion) = (op, None) ->
   requests (trace (deleteVersion env c))
   = [ EvDeleteExtension (ctxString c flNamespace) (ctxString c flName) (ctxString c flVersion)
     ; EvWaitForOperation op ] /\
   waits (trace (deleteVersion env c)) = [EvWaitForOperation op]).
Proof.
  intros Hset Hbuilt. split; revert Hbuilt.
  - rewrite unpublishVersion_rendered. unfold unpublishDocOf.
    run_cases; try flag_is_set Hset.
    all: intros [H1 H2]; try discriminate.
    all: intros Heq; try discriminate Heq; injection Heq as <-; split; reflexivity.
  - run_cases; try flag_is_set Hset.
    all: intros [H1 H2]; try discriminate.
    all: intros Heq; try discriminate Heq; injection Heq as <-; split; reflexivity.
Qed.

Lemma operation_id_is_handed_to_wait_witness :
  waits (trace (unpublishVersion okEnv okContext)) = [EvWaitForOperation "op-7f3a"] /\
  requests (trace (deleteVersion okEnv okContext))
  = [ EvDeleteExtension "Microsoft.Azure.Extensions" "FooExtension" "1.0.0"
    ; EvWaitForOperation "op-91c2" ].
Proof.
  split.
  - apply (operation_id_is_handed_to_wait unit okEnv okContext "op-7f3a"
             okContext_set okEnv_builds).
    reflexivity.
  - apply (operation_id_is_handed_to_wait unit okEnv okContext "op-91c2"
             okContext_set okEnv_builds).
    reflexivity.
Defined.

(** ** The poller *)
Section PollerProperties.

Import Poller.
Local Open Scope nat_scope.

(** The scenarios of the specification, on the model. *)
Example three_queries_two_sleeps :
  wait (cannedSource [Answer InProgress; Answer InProgress; Answer Succeeded] 0)
       (mkConfig 1 3) "op" 100 noCancel 10 (mkWorld 0 0 0)
  = Some (ResultSucceeded, mkWorld 2 3 2).
Proof. reflexivity. Qed.

Example three_transport_errors :
  wait (cannedSource [TransportError "reset"; TransportError "reset"; TransportError "reset"] 0)
       (mkConfig 1 3) "op" 100 noCancel 10 (mkWorld 0 0 0)
  = Some (ResultFailed OperationQueryFailed, mkWorld 2 3 2).
Proof. reflexivity. Qed.

(** A deadline of two and a half intervals: three queries, then the
    deadline check stops the fourth. *)
Example deadline_of_two_and_a_half_intervals :
  wait (neverFinishes 0) (mkConfig 2 3) "op" 5 noCancel 10 (mkWorld 0 0 0)
  = Some (ResultTimedOut, mkWorld 6 3 3).
Proof. reflexivity. Qed.

Variable src : Source.
Variable operationID : string.

Lemma polling_returns_within_bound (cfg : Config) (deadline : nat)
    (cancelSignal : nat -> bool) (start requestTimeout : nat) :
  0 < interval cfg ->
  (forall n, duration src n operationID <= requestTimeout) ->
  forall fuel failures w,
    start <= now w ->
    now w <= start + deadline + interval cfg + requestTimeout ->
    deadline + 1 - (now w - start) < fuel ->
    exists r w1,
      loop src cfg operationID deadline cancelSignal start fuel Polling failures w
      = Some (r, w1) /\
      now w1 <= start + deadline + interval cfg + requestTimeout.
Proof.
  intros Hint Hdur. induction fuel as [|fuel IH]; intros failures w Hstart Hnow Hfuel.
  - lia.
  - cbn [loop].
    destruct (cancelSignal (now w)); [now exists ResultCancelled, w|].
    destruct (deadline <? now w - start) eqn:Hd; [now exists ResultTimedOut, w|].
    apply Nat.ltb_ge in Hd. unfold query.
    pose proof (Hdur (asked w)) as Hq.
    destruct (answer src (asked w) operationID) as [[| |code message]|e].
    + apply IH; cbn [sleep now]; lia.
    + eexists _, _. split; [reflexivity|]. cbn [now]. lia.
    + eexists _, _. split; [reflexivity|]. cbn [now]. lia.
    + destruct (retryBound cfg <=? S failures).
      * eexists _, _. split; [reflexivity|]. cbn [now]. lia.
      * apply IH; cbn [sleep now]; lia.
Qed.

(** C4. Whatever the status source answers, also [InProgress] for ever,
    [wait] returns a terminal result, and the clock then shows at most the
    deadline plus one poll interval plus one request timeout more than at
    the invocation. The poll interval is positive, every status query
    returns within the request timeout, and [deadline + 2] iterations are
    enough. *)
Theorem wait_returns_within_bound (cfg : Config) (deadline : nat)
    (cancelSignal : nat -> bool) (requestTimeout fuel : nat) (w : World) :
  0 < interval cfg ->
  (forall n, duration src n operationID <= requestTimeout) ->
  deadline + 2 <= fuel ->
  exists r w1,
    wait src cfg operationID deadline cancelSignal fuel w = Some (r, w1) /\
    now w1 <= now w + deadline + interval cfg + requestTimeout.
Proof.
  intros Hint Hdur Hfuel. unfold wait.
  destruct fuel as [|fuel]; [lia|]. cbn [loop]. unfold query.
  pose proof (Hdur (asked w)) as Hq.
  destruct (answer src (asked w) operationID) as [[| |code message]|e].
  - apply polling_returns_within_bound; cbn [sleep now]; try assumption; lia.
  - eexists _, _. split; [reflexivity|]. cbn [now]. lia.
  - eexists _, _. split; [reflexivity|]. cbn [now]. lia.
  - destruct (retryBound cfg <=? 1).
    + eexists _, _. split; [reflexivity|]. cbn [now]. lia.
    + apply polling_returns_within_bound; cbn [sleep now]; try assumption; lia.
Qed.




End PollerProperties.

Lemma wait_returns_within_bound_witness :
  exists r w1,
    Poller.wait (Poller.neverFinishes 1) (Poller.mkConfig 2 3) "op" 5 Poller.noCancel 7
      (Poller.mkWorld 10 0 0) = Some (r, w1) /\
    (Poller.now w1 <= 10 + 5 + 2 + 1)%nat.
Proof.
  apply (wait_returns_within_bound (Poller.neverFinishes 1) "op" (Poller.mkConfig 2 3)
           5 Poller.noCancel 1 7 (Poller.mkWorld 10 0 0)).
  - simpl. lia.
  - intros n. simpl. lia.
  - lia.
Defined.




(** * Further properties of the commands *)

(** ** [checkFlag] and [mkClient] *)

(** X1. A value returned by [checkFlag] is the value of the flag, is not
    empty, and has been returned without any event. *)
Theorem checkFlag_returns_nonempty (c : Context) (fl v : string) :
  outcome (checkFlag c fl) = Done v ->
  v = ctxString c fl /\ v <> "" /\ trace (checkFlag c fl) = [].
Proof.
  unfold checkFlag, outcome, trace.
  destruct (String.eqb_spec (ctxString c fl) "") as [E|E]; cbn.
  - discriminate.
  - intros [= <-]. auto.
Qed.

Lemma checkFlag_returns_nonempty_witness :
  "FooExtension" = ctxString okContext flName /\ "FooExtension" <> "" /\
  trace (checkFlag okContext flName) = [].
Proof.
  apply (checkFlag_returns_nonempty okContext flName "FooExtension"). reflexivity.
Defined.

(** X2. [mkClient] calls [NewClient] only after the certificate file has
    been read without error, and gives it the subscription id and the bytes
    of the file as they are. *)
Theorem mkClient_hands_bytes_to_NewClient C (env : Env C)
    (subscriptionID certFile id cert : string) :
  In (EvNewClient id cert) (trace (mkClient env subscriptionID certFile)) ->
  snd (ReadFile env certFile) = None /\
  id = subscriptionID /\ cert = fst (ReadFile env certFile).
Proof.
  unfold_cmd; cbn. repeat (case_step; cbn).
  all: intros H; repeat (destruct H as [H|H]; try discriminate H); try contradiction.
  all: injection H as <- <-; auto.
Qed.

Lemma mkClient_hands_bytes_to_NewClient_witness :
  snd (ReadFile okEnv "cert.pem") = None /\
  "c1a2" = "c1a2" /\ "-----BEGIN CERTIFICATE-----" = fst (ReadFile okEnv "cert.pem").
Proof.
  apply (mkClient_hands_bytes_to_NewClient unit okEnv "c1a2" "cert.pem").
  vm_compute. right. left. reflexivity.
Defined.

(** X3. [mkClient] returns a client exactly when the file is read and
    [NewClient] reports no error, and then it is the client [NewClient]
    returned; in every other case the process exits with status 1. It never
    calls a method of the client. *)
Theorem mkClient_succeeds_iff C (env : Env C) (subscriptionID certFile : string) :
  (forall cl,
     outcome (mkClient env subscriptionID certFile) = Done cl <->
     snd (ReadFile env certFile) = None /\
     NewClient env subscriptionID (fst (ReadFile env certFile)) = (cl, None)) /\
  (outcome (mkClient env subscriptionID certFile) = Exit 1 \/
   outcome (mkClient env subscriptionID certFile)
   = Done (fst (NewClient env subscriptionID (fst (ReadFile env certFile))))) /\
  requests (trace (mkClient env subscriptionID certFile)) = [].
Proof.
  unfold_cmd; cbn. repeat (case_step; cbn).
  all: split; [intros cl; split|split; [auto|reflexivity]].
  all: try (intros H; discriminate H).
  all: try (intros [H1 H2]; discriminate).
  - intros [= <-]. auto.
  - intros [_ [= <-]]. reflexivity.
Qed.

(** ** Which flag is reported *)
Lemma fillParams_by_firstEmpty (c : Context) flags (p : ManifestParams) :
  fillParams c flags p
  = match firstEmpty c (map snd flags) with
    | Some fl => ([missingArgument fl], Exit 1)
    | None => ret (fold_left (fun q f => fst f q (ctxString c (snd f))) flags p)
    end.
Proof.
  revert p. induction flags as [|[ref fl0] flags IH]; intros p; simpl; [reflexivity|].
  destruct (String.eqb_spec (ctxString c fl0) "") as [E|E].
  - now rewrite (checkFlag_empty _ _ E).
  - rewrite (checkFlag_set _ _ E), bind_ret. apply IH.
Qed.

Lemma executeNodes_only_writes (stdout : Writer) (t : Template.Template) (d : Template.Data) :
  forall written ev,
    In ev (trace (executeNodes stdout t d written)) -> exists s, ev = EvStdout s.
Proof.
  induction t as [|n t IH]; intros written ev; cbn [executeNodes]; [intros []|].
  destruct (Template.printed n d) as [e|chunk]; [intros []|].
  destruct (stdout written chunk) as [k err]. cbv zeta.
  set (accepted := substring 0 k chunk).
  assert (Hrest : forall ev',
            In ev' (trace (match err with
                           | Some e => ret (Some e)
                           | None => executeNodes stdout t d (written ++ accepted)
                           end)) -> exists s, ev' = EvStdout s).
  { intros ev'. destruct err as [e|]; [intros []|]. apply IH. }
  destruct (match err with
            | Some e => ret (Some e)
            | None => executeNodes stdout t d (written ++ accepted)
            end) as [t0 r].
  destruct (String.eqb accepted ""); cbn in Hrest |- *.
  - apply Hrest.
  - intros [<-|Hin]; [now exists accepted | now apply Hrest].
Qed.

(** X4. new-extension-manifest checks its ten flags in the order of its
    table and stops at the first empty one: the run is the single fatal
    entry naming that flag, whatever the later flags hold and whatever
    standard output does. With no empty flag no argument is reported
    missing and the template is never refused by the parser: every event is
    a write to standard output, or the entry of an execution that failed. *)
Theorem newExtensionManifest_by_first_empty_flag (stdout : Writer) (c : Context) :
  match firstEmpty c tenFlags with
  | Some fl => newExtensionManifest stdout c = ([missingArgument fl], Exit 1)
  | None =>
      forall ev, In ev (trace (newExtensionManifest stdout c)) ->
                 (exists s, ev = EvStdout s) \/
                 (exists e, ev = EvLog FatalLevel [] ("template execute error: " ++ e))
  end.
Proof.
  unfold newExtensionManifest. rewrite fillParams_by_firstEmpty.
  change (map snd manifestFlags) with tenFlags.
  destruct (firstEmpty c tenFlags) as [fl|]; [reflexivity|].
  rewrite bind_ret.
  change (fold_left _ manifestFlags zeroParams) with (paramsOf c).
  destruct (Template.Parse newManifestXml) as [e|tpl] eqn:Hp.
  - rewrite newManifestXml_parses in Hp. discriminate.
  - unfold executeToStdout.
    pose proof (executeNodes_only_writes stdout tpl (manifestData (paramsOf c)) "") as Hw.
    destruct (executeNodes stdout tpl (manifestData (paramsOf c)) "") as [t0 [[e|]|code]];
      cbn in Hw |- *; intros ev Hin.
    + apply in_app_or in Hin. destruct Hin as [Hin|[<-|[]]].
      * left. now apply Hw.
      * right. now exists e.
    + rewrite app_nil_r in Hin. left. now apply Hw.
    + left. now apply Hw.
Qed.

(** X20. When standard output refuses the first write, as a closed one
    does, new-extension-manifest with its ten flags set writes nothing and
    exits with status 1 on the entry of the execute error, which carries the
    error of the write. *)
Theorem refused_write_is_fatal (stdout : Writer) (c : Context) (e : error) :
  firstEmpty c tenFlags = None ->
  (forall chunk, stdout "" chunk = (0, Some e)) ->
  newExtensionManifest stdout c
  = ([EvLog FatalLevel [] ("template execute error: " ++ e)], Exit 1).
Proof.
  intros Hset Hrefused.
  unfold newExtensionManifest. rewrite fillParams_by_firstEmpty.
  change (map snd manifestFlags) with tenFlags. rewrite Hset, bind_ret.
  rewrite newManifestXml_parses.
  unfold executeToStdout. cbn [executeNodes Template.printed].
  rewrite Hrefused. reflexivity.
Qed.

Lemma refused_write_is_fatal_witness :
  newExtensionManifest closedStdout fullContext
  = ([EvLog FatalLevel [] "template execute error: write /dev/stdout: bad file descriptor"],
     Exit 1).
Proof.
  apply (refused_write_is_fatal closedStdout fullContext
           "write /dev/stdout: bad file descriptor").
  - reflexivity.
  - intros chunk. reflexivity.
Defined.

(** X5. list-versions and unpublish-version check all their flags before
    they touch the certificate file: when one is empty the run is the single
    fatal entry naming the first empty flag in the order of the checks
    (for unpublish-version: namespace, name, version, subscription id,
    certificate). No file is read and no client is built. *)
Theorem missing_flag_stops_before_any_access C (env : Env C) (cmd : Command)
    (c : Context) (fl : string) :
  cmd = ListVersionsCmd \/ cmd = UnpublishVersionCmd ->
  firstEmpty c (checkedBeforeClient cmd) = Some fl ->
  run env cmd c = ([missingArgument fl], Exit 1).
Proof.
  intros [-> | ->]; unfold run, checkedBeforeClient, firstEmpty;
    try rewrite unpublishVersion_rendered.
  all: run_cases; intros H; try discriminate H; injection H as <-; reflexivity.
Qed.

Lemma missing_flag_stops_before_any_access_witness :
  run okEnv UnpublishVersionCmd
    [("subscription-id", "c1a2"); ("namespace", "Microsoft.Azure.Extensions")]
  = ([missingArgument "name"], Exit 1).
Proof.
  apply (missing_flag_stops_before_any_access unit okEnv UnpublishVersionCmd).
  - right. reflexivity.
  - reflexivity.
Defined.

(** X6. replication-status and delete-version read the certificate and
    build the client before they look at namespace, name and version: with
    the first two flags set and the client built, an empty one among the
    three stops the run after [ReadFile] and [NewClient], on the first empty
    flag in that order. *)
Theorem identity_flags_checked_after_client C (env : Env C) (cmd : Command)
    (c : Context) (fl : string) :
  cmd = ReplicationStatusCmd \/ cmd = DeleteVersionCmd ->
  firstEmpty c [flSubsID; flSubsCert] = None ->
  clientBuilt env c ->
  firstEmpty c [flNamespace; flName; flVersion] = Some fl ->
  run env cmd c
  = ([ EvReadFile (ctxString c flSubsCert)
     ; EvNewClient (ctxString c flSubsID) (certBytes env c)
     ; missingArgument fl ], Exit 1).
Proof.
  intros [-> | ->]; unfold run, firstEmpty.
  all: run_cases; intros H; try discriminate H.
  all: intros [H1 H2]; try discriminate.
  all: intros H3; try discriminate H3; injection H3 as <-; reflexivity.
Qed.

Lemma identity_flags_checked_after_client_witness :
  run okEnv DeleteVersionCmd
    [("subscription-id", "c1a2"); ("subscription-cert", "cert.pem");
     ("namespace", "Microsoft.Azure.Extensions"); ("version", "1.0.0")]
  = ([ EvReadFile "cert.pem"
     ; EvNewClient "c1a2" "-----BEGIN CERTIFICATE-----"
     ; missingArgument "name" ], Exit 1).
Proof.
  apply (identity_flags_checked_after_client unit okEnv DeleteVersionCmd).
  - right. reflexivity.
  - reflexivity.
  - split; reflexivity.
  - reflexivity.
Defined.

(** ** How a run ends *)
Lemma flagsSet_firstEmpty (c : Context) (flags : list string) :
  flagsSet c flags <-> firstEmpty c flags = None.
Proof.
  unfold flagsSet. induction flags as [|fl flags IH]; simpl.
  - split; [reflexivity | intros _ f []].
  - destruct (String.eqb_spec (ctxString c fl) "") as [E|E].
    + split; [|discriminate]. intros H. exfalso. apply (H fl); auto.
    + rewrite <- IH. split.
      * intros H f Hin. apply H. now right.
      * intros H f [<-|Hin]; [exact E | now apply H].
Qed.

Ltac unfold_answers :=
  unfold requestError, waitError, operationOf, unpublishDocOf, commandFlags, fiveFlags,
    firstEmpty, requestFailure, waitFailure.

(** X7. A client-backed command ends with status 0 exactly when all its
    flags are set, the client is built, its request returns no error and,
    for the two mutating commands, the wait returns no error. Otherwise it
    exits with status 1. *)
Theorem command_succeeds_iff C (env : Env C) (cmd : Command) (c : Context) :
  (outcome (run env cmd c) = Done tt <->
   flagsSet c (commandFlags cmd) /\ clientBuilt env c /\
   requestError env cmd c = None /\ waitError env cmd c = None) /\
  (outcome (run env cmd c) = Done tt \/ outcome (run env cmd c) = Exit 1).
Proof.
  rewrite flagsSet_firstEmpty.
  destruct cmd; unfold run; try rewrite unpublishVersion_rendered; unfold_answers.
  all: run_cases.
  all: split; [split; intros H|auto].
  all: first [ discriminate H
             | decompose [and] H; discriminate
             | repeat split; reflexivity ].
Qed.

(** X8. When the request of a command returns an error (flags set, client
    built), the command exits with status 1 on the fatal entry of that
    request, renders nothing and does not wait. list-versions and
    replication-status leave the verb in the message and append the error
    to it. *)
Theorem request_failure_is_fatal C (env : Env C) (cmd : Command) (c : Context) (e : error) :
  flagsSet c (commandFlags cmd) -> clientBuilt env c ->
  requestError env cmd c = Some e ->
  outcome (run env cmd c) = Exit 1 /\
  outputs (trace (run env cmd c)) = [] /\
  waits (trace (run env cmd c)) = [] /\
  last (trace (run env cmd c)) (EvStdout "") = requestFailure cmd e.
Proof.
  rewrite flagsSet_firstEmpty.
  destruct cmd; unfold run; try rewrite unpublishVersion_rendered; unfold_answers.
  all: run_cases.
  all: intros H0; try discriminate H0; intros [H1 H2]; try discriminate.
  all: intros H3; try discriminate H3; injection H3 as <-.
  all: repeat split; reflexivity.
Qed.

Lemma request_failure_is_fatal_witness :
  outcome (run refusingEnv ListVersionsCmd okContext) = Exit 1 /\
  outputs (trace (run refusingEnv ListVersionsCmd okContext)) = [] /\
  waits (trace (run refusingEnv ListVersionsCmd okContext)) = [] /\
  last (trace (run refusingEnv ListVersionsCmd okContext)) (EvStdout "")
  = EvLog FatalLevel [] "Request failed: %v403 Forbidden".
Proof.
  apply (request_failure_is_fatal unit refusingEnv ListVersionsCmd okContext "403 Forbidden").
  - intros fl Hin. simpl in Hin.
    repeat (destruct Hin as [<-|Hin]; [vm_compute; discriminate|]). destruct Hin.
  - split; reflexivity.
  - reflexivity.
Defined.

(** X9. When the mutating call is accepted and [WaitForOperation] returns
    an error, the command exits with status 1 on a fatal entry and never
    announces the end of the operation. unpublish-version words that entry
    like the one of a refused update and adds the operation id as the field
    x-ms-operation-id; delete-version has its own message and no field. *)
Theorem wait_failure_is_fatal C (env : Env C) (cmd : Command) (c : Context) (e : error) :
  isMutating cmd = true ->
  flagsSet c (commandFlags cmd) -> clientBuilt env c ->
  requestError env cmd c = None ->
  waitError env cmd c = Some e ->
  outcome (run env cmd c) = Exit 1 /\
  last (trace (run env cmd c)) (EvStdout "") = waitFailure cmd (operationOf env cmd c) e /\
  filter isFinished (trace (run env cmd c)) = [] /\
  waits (trace (run env cmd c)) = [EvWaitForOperation (operationOf env cmd c)].
Proof.
  rewrite flagsSet_firstEmpty.
  destruct cmd; try discriminate; intros _.
  all: unfold run; try rewrite unpublishVersion_rendered; unfold_answers.
  all: run_cases.
  all: intros H0; try discriminate H0; intros [H1 H2]; try discriminate.
  all: intros H3; try discriminate H3.
  all: intros H4; try discriminate H4; injection H4 as <-.
  all: repeat split; reflexivity.
Qed.

Lemma wait_failure_is_fatal_witness :
  outcome (run failingWaitEnv UnpublishVersionCmd okContext) = Exit 1 /\
  last (trace (run failingWaitEnv UnpublishVersionCmd okContext)) (EvStdout "")
  = EvLog FatalLevel [("x-ms-operation-id", "op-7f3a")]
      "UpdateExtension failed: operation failed" /\
  filter isFinished (trace (run failingWaitEnv UnpublishVersionCmd okContext)) = [] /\
  waits (trace (run failingWaitEnv UnpublishVersionCmd okContext))
  = [EvWaitForOperation "op-7f3a"].
Proof.
  apply (wait_failure_is_fatal unit failingWaitEnv UnpublishVersionCmd okContext
           "operation failed").
  - reflexivity.
  - intros fl Hin. simpl in Hin.
    repeat (destruct Hin as [<-|Hin]; [vm_compute; discriminate|]). destruct Hin.
  - split; reflexivity.
  - reflexivity.
  - reflexivity.
Defined.

(** X10. A mutating command announces the end of the operation exactly when
    it ends with status 0, and the announcement is then the last event of
    the run. *)
Theorem finished_is_logged_iff_success C (env : Env C) (cmd : Command) (c : Context) :
  isMutating cmd = true ->
  (outcome (run env cmd c) = Done tt <-> filter isFinished (trace (run env cmd c)) <> []) /\
  (forall e, In e (filter isFinished (trace (run env cmd c))) ->
             e = last (trace (run env cmd c)) (EvStdout "")).
Proof.
  destruct cmd; try discriminate; intros _.
  all: unfold run; try rewrite unpublishVersion_rendered.
  all: run_cases.
  all: split; [split; intros H; first [discriminate H | congruence | reflexivity]|].
  all: intros ev Hin; repeat (destruct Hin as [<-|Hin]; [reflexivity|]); destruct Hin.
Qed.

Lemma finished_is_logged_iff_success_witness :
  (outcome (run okEnv DeleteVersionCmd okContext) = Done tt <->
   filter isFinished (trace (run okEnv DeleteVersionCmd okContext)) <> []) /\
  (forall e, In e (filter isFinished (trace (run okEnv DeleteVersionCmd okContext))) ->
             e = last (trace (run okEnv DeleteVersionCmd okContext)) (EvStdout "")).
Proof.
  apply (finished_is_logged_iff_success unit okEnv DeleteVersionCmd okContext).
  reflexivity.
Defined.

(** X11. Every exit of a client-backed command is announced: the run ends
    with status 1 exactly when its last event is a fatal entry, and no fatal
    entry is followed by anything. *)
Theorem exit_iff_last_entry_is_fatal C (env : Env C) (cmd : Command) (c : Context) :
  (outcome (run env cmd c) = Exit 1 <->
   isFatal (last (trace (run env cmd c)) (EvStdout "")) = true) /\
  filter isFatal (removelast (trace (run env cmd c))) = [].
Proof.
  destruct cmd; unfold run; try rewrite unpublishVersion_rendered.
  all: run_cases.
  all: split; [split; intros H; first [discriminate H | reflexivity]|reflexivity].
Qed.

(** ** What is written and what is read *)

(** X12. unpublish-version and delete-version never write to standard
    output: whatever they report goes to the log. *)
Theorem mutating_commands_print_nothing C (env : Env C) (cmd : Command) (c : Context) :
  isMutating cmd = true -> outputs (trace (run env cmd c)) = [].
Proof.
  destruct cmd; try discriminate; intros _.
  all: unfold run; try rewrite unpublishVersion_rendered.
  all: run_cases; reflexivity.
Qed.

Lemma mutating_commands_print_nothing_witness :
  outputs (trace (run okEnv UnpublishVersionCmd okContext)) = [].
Proof.
  apply (mutating_commands_print_nothing unit okEnv UnpublishVersionCmd okContext).
  reflexivity.
Defined.

(** X13. Every row of a rendered table has as many cells as the header of
    that table: five for list-versions, two for replication-status. *)
Theorem table_rows_match_header C (env : Env C) (cmd : Command) (c : Context)
    (header : list string) (rows : list (list string)) (row : list string) :
  In (EvTable header rows) (trace (run env cmd c)) ->
  In row rows ->
  length row = length header.
Proof.
  destruct cmd; unfold run; try rewrite unpublishVersion_rendered.
  all: run_cases.
  all: intros H; repeat (destruct H as [H|H]; try discriminate H); try contradiction.
  all: injection H as <- <-; rewrite appendRows_map; intros Hrow.
  all: apply in_map_iff in Hrow; destruct Hrow as (x & <- & _); reflexivity.
Qed.

Lemma table_rows_match_header_witness :
  length ["Microsoft.Azure.Extensions"; "A"; "2.0"; "false"; ""] = length versionsHeader.
Proof.
  apply (table_rows_match_header unit okEnv ListVersionsCmd okContext versionsHeader
           [ ["Microsoft.Azure.Extensions"; "B"; "1.0"; "true"; "West US"]
           ; ["Microsoft.Azure.Extensions"; "A"; "2.0"; "false"; ""] ]).
  - vm_compute. do 3 right. left. reflexivity.
  - right. left. reflexivity.
Defined.

(** X14. A client-backed command reads at most one file, the one named by
    the flag subscription-cert, and calls [NewClient] at most once, after
    that file was read without error, on the flag subscription-id and the
    bytes of the file. *)
Theorem certificate_is_read_once_and_handed_over C (env : Env C) (cmd : Command) (c : Context) :
  filter isSetup (trace (run env cmd c)) = [] \/
  filter isSetup (trace (run env cmd c)) = [EvReadFile (ctxString c flSubsCert)] /\
  snd (ReadFile env (ctxString c flSubsCert)) <> None \/
  filter isSetup (trace (run env cmd c))
  = [ EvReadFile (ctxString c flSubsCert)
    ; EvNewClient (ctxString c flSubsID) (certBytes env c) ] /\
  snd (ReadFile env (ctxString c flSubsCert)) = None.
Proof.
  destruct cmd; unfold run; try rewrite unpublishVersion_rendered.
  all: run_cases.
  all: first [ left; reflexivity
             | right; left; split; [reflexivity | discriminate]
             | right; right; split; reflexivity ].
Qed.

(** ** The command table *)
Lemma checkFlag_agree (c c' : Context) (fl : string) :
  ctxString c fl = ctxString c' fl -> checkFlag c fl = checkFlag c' fl.
Proof. intros H. unfold checkFlag. now rewrite H. Qed.

Lemma fillParams_agree (c c' : Context) flags (p : ManifestParams) :
  agreeOn (map snd flags) c c' -> fillParams c flags p = fillParams c' flags p.
Proof.
  revert p. induction flags as [|[ref fl] flags IH]; intros p H; simpl; [reflexivity|].
  rewrite (checkFlag_agree c c' fl) by (apply H; now left).
  apply bind_ext. intros v. apply IH. intros f Hin. apply H. now right.
Qed.

(** X15. The action of every command of the table reads only flags that
    the table declares for it: two contexts that agree on the declared flags
    of a command give the same run. *)
Theorem actions_read_only_declared_flags C (env : Env C) (stdout : Writer)
    (cmd : cli_Command) (c c' : Context) :
  In cmd (appCommands env stdout) ->
  agreeOn (map flag_Name (cmd_Flags cmd)) c c' ->
  cmd_Action cmd c = cmd_Action cmd c'.
Proof.
  intros Hin Hagree.
  assert (Hfl : forall fl, In fl (map flag_Name (cmd_Flags cmd)) ->
                           checkFlag c fl = checkFlag c' fl).
  { intros fl Hfl. apply checkFlag_agree, Hagree, Hfl. }
  simpl in Hin. destruct Hin as [<-|[<-|[<-|[<-|[<-|[]]]]]]; cbn in Hfl, Hagree |- *.
  - unfold newExtensionManifest. now rewrite (fillParams_agree c c').
  - unfold listVersions.
    rewrite !(Hfl flSubsID), !(Hfl flSubsCert) by (simpl; tauto). reflexivity.
  - unfold replicationStatus.
    rewrite (Hfl flSubsID), (Hfl flSubsCert), (Hfl flNamespace), (Hfl flName),
      (Hfl flVersion) by (simpl; tauto).
    reflexivity.
  - unfold unpublishVersion.
    rewrite (Hfl flSubsID), (Hfl flSubsCert), (Hfl flNamespace), (Hfl flName),
      (Hfl flVersion) by (simpl; tauto).
    reflexivity.
  - unfold deleteVersion.
    rewrite (Hfl flSubsID), (Hfl flSubsCert), (Hfl flNamespace), (Hfl flName),
      (Hfl flVersion) by (simpl; tauto).
    reflexivity.
Qed.

Lemma actions_read_only_declared_flags_witness :
  listVersions okEnv okContext
  = listVersions okEnv [("subscription-cert", "cert.pem"); ("subscription-id", "c1a2");
                        ("manifest", "manifest.xml")].
Proof.
  apply (actions_read_only_declared_flags unit okEnv openStdout
           (mkCommand "list-versions"
              "Lists all published extension versions for subscription"
              (listVersions okEnv) [subsIDFlag; subsCertFlag])).
  - right. left. reflexivity.
  - intros fl Hin. simpl in Hin.
    repeat (destruct Hin as [<-|Hin]; [reflexivity|]). destruct Hin.
Defined.

(** ** The two mutating commands together *)

(** X16. Run on the same flags, unpublish-version and delete-version name
    the same extension version: the namespace, name and version that
    unpublish-version writes into the document it submits are the three
    arguments delete-version gives to [DeleteExtension]. *)
Theorem unpublish_and_delete_name_the_same_version C (env : Env C) (c : Context) :
  flagsSet c fiveFlags -> clientBuilt env c ->
  exists ns name version,
    In (EvUpdateExtension (unpublishDoc ns name version)) (trace (unpublishVersion env c)) /\
    In (EvDeleteExtension ns name version) (trace (deleteVersion env c)) /\
    ns = ctxString c flNamespace /\ name = ctxString c flName /\
    version = ctxString c flVersion.
Proof.
  intros Hset Hbuilt.
  exists (ctxString c flNamespace), (ctxString c flName), (ctxString c flVersion).
  split; [|split; [|auto]]; revert Hbuilt.
  - rewrite unpublishVersion_rendered. run_cases; try flag_is_set Hset.
    all: intros [H1 H2]; try discriminate; simpl; tauto.
  - run_cases; try flag_is_set Hset.
    all: intros [H1 H2]; try discriminate; simpl; tauto.
Qed.

Lemma unpublish_and_delete_name_the_same_version_witness :
  exists ns name version,
    In (EvUpdateExtension (unpublishDoc ns name version))
       (trace (unpublishVersion okEnv okContext)) /\
    In (EvDeleteExtension ns name version) (trace (deleteVersion okEnv okContext)) /\
    ns = ctxString okContext flNamespace /\ name = ctxString okContext flName /\
    version = ctxString okContext flVersion.
Proof.
  exact (unpublish_and_delete_name_the_same_version unit okEnv okContext
           okContext_set okEnv_builds).
Defined.

(** ** The ways a command fails *)
Ltac blame_flag fl :=
  left; exists fl; split; [simpl; tauto | split; [assumption | split; reflexivity]].

(** X17. Every fatal entry of a client-backed command has one of five
    causes, and says which: an empty flag of the command, the certificate
    file that could not be read, the client that could not be built, the
    request that returned an error, or the wait that returned an error. *)
Theorem fatal_entries_and_their_causes C (env : Env C) (cmd : Command) (c : Context)
    (fields : list (string * string)) (msg : string) :
  In (EvLog FatalLevel fields msg) (trace (run env cmd c)) ->
  (exists fl, In fl (commandFlags cmd) /\ ctxString c fl = "" /\
              fields = [] /\ msg = "argument " ++ fl ++ " must be provided") \/
  (exists e, snd (ReadFile env (ctxString c flSubsCert)) = Some e /\ fields = [] /\
             msg = "Cannot read certificate %s: %v" ++ ctxString c flSubsCert ++ e) \/
  (exists e, snd (NewClient env (ctxString c flSubsID) (certBytes env c)) = Some e /\
             fields = [] /\ msg = "Cannot create client: %v" ++ e) \/
  (exists e, requestError env cmd c = Some e /\
             EvLog FatalLevel fields msg = requestFailure cmd e) \/
  (exists e, waitError env cmd c = Some e /\
             EvLog FatalLevel fields msg = waitFailure cmd (operationOf env cmd c) e).
Proof.
  destruct cmd; unfold run; try rewrite unpublishVersion_rendered; unfold_answers.
  all: run_cases.
  all: intros H; repeat (destruct H as [H|H]; try discriminate H); try contradiction.
  all: injection H as <- <-.
  all: first
         [ blame_flag flSubsID | blame_flag flSubsCert | blame_flag flNamespace
         | blame_flag flName | blame_flag flVersion
         | right; left; eexists; split; [reflexivity | split; reflexivity]
         | right; right; left; eexists; split; [reflexivity | split; reflexivity]
         | right; right; right; left; eexists; split; reflexivity
         | right; right; right; right; eexists; split; reflexivity ].
Qed.

Lemma fatal_entries_and_their_causes_witness :
  (exists fl, In fl (commandFlags ReplicationStatusCmd) /\
              ctxString noNamespaceContext fl = "" /\
              (@nil (string * string)) = [] /\
              "Cannot read certificate %s: %vmissing.pemopen missing.pem: no such file or directory"
              = "argument " ++ fl ++ " must be provided") \/
  (exists e, snd (ReadFile noCertEnv (ctxString noNamespaceContext flSubsCert)) = Some e /\
             (@nil (string * string)) = [] /\
             "Cannot read certificate %s: %vmissing.pemopen missing.pem: no such file or directory"
             = "Cannot read certificate %s: %v" ++ ctxString noNamespaceContext flSubsCert ++ e) \/
  (exists e, snd (NewClient noCertEnv (ctxString noNamespaceContext flSubsID)
                    (certBytes noCertEnv noNamespaceContext)) = Some e /\
             (@nil (string * string)) = [] /\
             "Cannot read certificate %s: %vmissing.pemopen missing.pem: no such file or directory"
             = "Cannot create client: %v" ++ e) \/
  (exists e, requestError noCertEnv ReplicationStatusCmd noNamespaceContext = Some e /\
             EvLog FatalLevel []
               "Cannot read certificate %s: %vmissing.pemopen missing.pem: no such file or directory"
             = requestFailure ReplicationStatusCmd e) \/
  (exists e, waitError noCertEnv ReplicationStatusCmd noNamespaceContext = Some e /\
             EvLog FatalLevel []
               "Cannot read certificate %s: %vmissing.pemopen missing.pem: no such file or directory"
             = waitFailure ReplicationStatusCmd
                 (operationOf noCertEnv ReplicationStatusCmd noNamespaceContext) e).
Proof.
  apply (fatal_entries_and_their_causes unit noCertEnv ReplicationStatusCmd
           noNamespaceContext).
  vm_compute. right. left. reflexivity.
Defined.

(** ** The order of effects in a successful run *)

(** X18. A successful unpublish-version does, in this order: read the
    certificate, build the client, submit the document, log that the
    operation started, wait for it, log that it finished; both entries carry
    the operation id as the field x-ms-operation-id. *)
Theorem unpublish_successful_run C (env : Env C) (c : Context) :
  outcome (unpublishVersion env c) = Done tt ->
  trace (unpublishVersion env c)
  = [ EvReadFile (ctxString c flSubsCert)
    ; EvNewClient (ctxString c flSubsID) (certBytes env c)
    ; EvUpdateExtension (unpublishDocOf c)
    ; EvLog InfoLevel [("x-ms-operation-id", operationOf env UnpublishVersionCmd c)]
        "UpdateExtension operation started."
    ; EvWaitForOperation (operationOf env UnpublishVersionCmd c)
    ; EvLog InfoLevel [("x-ms-operation-id", operationOf env UnpublishVersionCmd c)]
        "UpdateExtension operation finished." ].
Proof.
  rewrite unpublishVersion_rendered. unfold_answers.
  run_cases; intros H; try discriminate H; reflexivity.
Qed.

Lemma unpublish_successful_run_witness :
  trace (unpublishVersion okEnv okContext)
  = [ EvReadFile "cert.pem"
    ; EvNewClient "c1a2" "-----BEGIN CERTIFICATE-----"
    ; EvUpdateExtension (unpublishDoc "Microsoft.Azure.Extensions" "FooExtension" "1.0.0")
    ; EvLog InfoLevel [("x-ms-operation-id", "op-7f3a")] "UpdateExtension operation started."
    ; EvWaitForOperation "op-7f3a"
    ; EvLog InfoLevel [("x-ms-operation-id", "op-7f3a")] "UpdateExtension operation finished." ].
Proof.
  apply (unpublish_successful_run unit okEnv okContext). reflexivity.
Defined.

(** X19. A successful delete-version does, in this order: read the
    certificate, build the client, log the reminder to unpublish first,
    call [DeleteExtension], log at debug level that the operation started,
    wait for it, log that it finished. Its entries carry no field. *)
Theorem delete_successful_run C (env : Env C) (c : Context) :
  outcome (deleteVersion env c) = Done tt ->
  trace (deleteVersion env c)
  = [ EvReadFile (ctxString c flSubsCert)
    ; EvNewClient (ctxString c flSubsID) (certBytes env c)
    ; EvLog InfoLevel []
        "Deleting extension version. Make sure you unpublished before deleting."
    ; EvDeleteExtension (ctxString c flNamespace) (ctxString c flName) (ctxString c flVersion)
    ; EvLog DebugLevel [] "DeleteExtension operation started."
    ; EvWaitForOperation (operationOf env DeleteVersionCmd c)
    ; EvLog InfoLevel [] "DeleteExtension operation finished." ].
Proof.
  unfold_answers.
  run_cases; intros H; try discriminate H; reflexivity.
Qed.

Lemma delete_successful_run_witness :
  trace (deleteVersion okEnv okContext)
  = [ EvReadFile "cert.pem"
    ; EvNewClient "c1a2" "-----BEGIN CERTIFICATE-----"
    ; EvLog InfoLevel []
        "Deleting extension version. Make sure you unpublished before deleting."
    ; EvDeleteExtension "Microsoft.Azure.Extensions" "FooExtension" "1.0.0"
    ; EvLog DebugLevel [] "DeleteExtension operation started."
    ; EvWaitForOperation "op-91c2"
    ; EvLog InfoLevel [] "DeleteExtension operation finished." ].
Proof.
  apply (delete_successful_run unit okEnv okContext). reflexivity.
Defined.
